(** * Update notifications of the Discord bot: [src/utils.js]

    A shallow embedding of [sendUpdateEmbed] and of the formatting helpers it
    uses, with the properties of the specification proved about them.

    JavaScript strings are sequences of UTF-16 code units; the built-in
    string and regular-expression operations the helpers call are modelled
    after ECMA-262, the outside collaborators (upstream clients, database,
    Discord cache, logger) as an environment and a trace of events. *)

From Stdlib Require Import String Ascii ZArith List Lia Bool DecimalString.
From Equations Require Import Equations.
Import ListNotations.
Open Scope Z_scope.

(** ** JavaScript strings *)

Module JS.

(** A string is the list of its UTF-16 code units. *)
Definition jsstring := list Z.

Definition unit_of_ascii (a : ascii) : Z := Z.of_N (N_of_ascii a).

(** An ASCII literal of the source as a JavaScript string. *)
Definition js (s : string) : jsstring := map unit_of_ascii (list_ascii_of_string s).

Definition jsstring_eq_dec : forall a b : jsstring, {a = b} + {a <> b} :=
  list_eq_dec Z.eq_dec.

(** [a === b] on strings. *)
Definition strict_eq (a b : jsstring) : bool :=
  if jsstring_eq_dec a b then true else false.

(** A JavaScript number as far as the helpers need it: an integer, or NaN
    ([None]). *)
Definition jsnumber := option Z.

Definition minus (a : jsnumber) (b : Z) : jsnumber := option_map (fun n => n - b) a.

(** [ToUint16]: NaN goes to 0, an integer is taken modulo 2^16. *)
Definition ToUint16 (n : jsnumber) : Z :=
  match n with
  | None => 0
  | Some z => z mod 65536
  end.

(** [ToString] of a number, as a template literal applies it. *)
Definition ToString (n : jsnumber) : jsstring :=
  match n with
  | None => js "NaN"
  | Some z => js (NilZero.string_of_int (Z.to_int z))
  end.

(** [s.charAt(0)]: the first code unit as a string, the empty string when
    there is none. *)
Definition charAt0 (s : jsstring) : jsstring :=
  match s with
  | [] => []
  | c :: _ => [c]
  end.

(** [s.charCodeAt(0)]: the first code unit, NaN when there is none. *)
Definition charCodeAt0 (s : jsstring) : jsnumber :=
  match s with
  | [] => None
  | c :: _ => Some c
  end.

(** [String.fromCharCode(n)]. *)
Definition fromCharCode (n : jsnumber) : jsstring := [ToUint16 n].

(** [s.slice(start, end)] with both arguments given: a negative index counts
    from the end of the string, both are clamped to the string. *)
Definition slice (s : jsstring) (start end_ : Z) : jsstring :=
  let len := Z.of_nat (length s) in
  let from := if start <? 0 then Z.max (len + start) 0 else Z.min start len in
  let to := if end_ <? 0 then Z.max (len + end_) 0 else Z.min end_ len in
  if to <=? from then []
  else firstn (Z.to_nat (to - from)) (skipn (Z.to_nat from) s).

Fixpoint starts_with (p s : jsstring) : bool :=
  match p, s with
  | [], _ => true
  | _ :: _, [] => false
  | a :: p', b :: s' => (b =? a) && starts_with p' s'
  end.

(** [s.indexOf(p)], counted from [i] at the head of [s]. *)
Fixpoint indexOf_from (p s : jsstring) (i : nat) : option nat :=
  if starts_with p s then Some i
  else match s with
       | [] => None
       | _ :: s' => indexOf_from p s' (S i)
       end.

Definition indexOf (s p : jsstring) : option nat := indexOf_from p s 0.

Definition DOLLAR : Z := 36.
Definition AMPERSAND : Z := 38.
Definition QUOTE : Z := 39.
Definition BACKTICK : Z := 96.

(** [GetSubstitution] for a match without capture groups: in the replacement
    text [$$] stands for a dollar sign, [$&] for the matched text, [$`] for
    the text before the match and [$'] for the text after it; every other
    code unit, a dollar sign included, stands for itself. *)
Fixpoint GetSubstitution (matched before after template : jsstring) : jsstring :=
  match template with
  | [] => []
  | c :: t =>
      if c =? DOLLAR then
        match t with
        | [] => [c]
        | d :: t' =>
            if d =? DOLLAR then DOLLAR :: GetSubstitution matched before after t'
            else if d =? AMPERSAND then matched ++ GetSubstitution matched before after t'
            else if d =? BACKTICK then before ++ GetSubstitution matched before after t'
            else if d =? QUOTE then after ++ GetSubstitution matched before after t'
            else c :: GetSubstitution matched before after t
        end
      else c :: GetSubstitution matched before after t
  end.

(** [s.replace(searchValue, replaceValue)] with two strings: the first
    occurrence of [searchValue] is replaced, a string without one is
    returned as it is. *)
Definition replace (s searchValue replaceValue : jsstring) : jsstring :=
  match indexOf s searchValue with
  | None => s
  | Some pos =>
      let before := firstn pos s in
      let after := skipn (pos + length searchValue) s in
      before ++ GetSubstitution searchValue before after replaceValue ++ after
  end.

End JS.
Export JS.
Arguments js s%_string.

(** ** Regular expressions

    The three patterns of [formatHtmlChangelog] are sequences of single
    code units and of lazily starred character classes; the matcher is the
    backtracking matcher of ECMA-262 restricted to these forms. *)

Module RegExp.

Inductive charset :=
| Char (c : Z)   (* a literal code unit *)
| Dot            (* [.] without the [s] flag *)
| Word.          (* [\w] *)

Inductive atom :=
| One (cs : charset)
| LazyStar (cs : charset).   (* [cs*?] *)

Definition regexp := list atom.

(** The line terminators: LF, CR, LS and PS. *)
Definition is_line_terminator (c : Z) : bool :=
  (c =? 10) || (c =? 13) || (c =? 8232) || (c =? 8233).

(** [A-Za-z0-9_] *)
Definition is_word_char (c : Z) : bool :=
  ((97 <=? c) && (c <=? 122)) || ((65 <=? c) && (c <=? 90))
  || ((48 <=? c) && (c <=? 57)) || (c =? 95).

Definition in_charset (cs : charset) (c : Z) : bool :=
  match cs with
  | Char d => c =? d
  | Dot => negb (is_line_terminator c)
  | Word => is_word_char c
  end.

(** [cs*?] followed by the continuation [k]: the continuation is tried
    first, and one more code unit of the class is consumed only when it
    fails. The result is the number of code units matched. *)
Fixpoint lazy_star (ok : Z -> bool) (k : jsstring -> option nat) (s : jsstring)
  : option nat :=
  match k s with
  | Some n => Some n
  | None =>
      match s with
      | [] => None
      | c :: s' => if ok c then option_map S (lazy_star ok k s') else None
      end
  end.

(** A match of [r] at the head of [s]: the length of the matched text. *)
Fixpoint match_here (r : regexp) (s : jsstring) {struct r} : option nat :=
  match r with
  | [] => Some 0%nat
  | One cs :: r' =>
      match s with
      | [] => None
      | c :: s' => if in_charset cs c then option_map S (match_here r' s') else None
      end
  | LazyStar cs :: r' => lazy_star (in_charset cs) (match_here r') s
  end.

(** [s.replace(/r/g, replaceValue)]: the matches are looked for from left to
    right, each search starting where the last match ended (one code unit
    further after an empty match); [before] is the text already passed. *)
Equations? replace_from (r : regexp) (replaceValue before s : jsstring)
  : jsstring by wf (length s) lt :=
  replace_from r replaceValue before [] with match_here r [] => {
    | Some _ := GetSubstitution [] before [] replaceValue
    | None := [] };
  replace_from r replaceValue before (c :: s') with match_here r (c :: s') => {
    | None := c :: replace_from r replaceValue (before ++ [c]) s'
    | Some 0%nat :=
        GetSubstitution [] before (c :: s') replaceValue
          ++ c :: replace_from r replaceValue (before ++ [c]) s'
    | Some (S n) :=
        GetSubstitution (c :: firstn n s') before (skipn n s') replaceValue
          ++ replace_from r replaceValue (before ++ c :: firstn n s') (skipn n s') }.
Proof.
  all: simpl; try rewrite length_skipn; lia.
Qed.

Definition replace_all (s : jsstring) (r : regexp) (replaceValue : jsstring)
  : jsstring :=
  replace_from r replaceValue [] s.

End RegExp.
Export RegExp.

(** ** The formatting helpers of [utils.js] *)

Definition classIdToUrlString (classId : Z) : jsstring :=
  if classId =? 5 then js "bukkit-plugins"
  else if classId =? 6 then js "mc-mods"
  else if classId =? 12 then js "texture-packs"
  else if classId =? 17 then js "worlds"
  else if classId =? 4471 then js "modpacks"
  else if classId =? 4546 then js "customization"
  else if classId =? 4559 then js "mc-addons"
  else js "unknownClassIdValue".

Definition releaseTypeToString (releaseType : Z) : jsstring :=
  if releaseType =? 1 then js "release"
  else if releaseType =? 2 then js "beta"
  else if releaseType =? 3 then js "alpha"
  else js "unknownReleaseType".

Definition capitalize (string : jsstring) : jsstring :=
  JS.replace string (charAt0 string) (fromCharCode (minus (charCodeAt0 string) 32)).

Record AuthorData := {
  author_name : jsstring;
  author_iconURL : option jsstring;
  author_url : option jsstring;
}.

Definition embedAuthorData (platform : jsstring) : AuthorData :=
  if strict_eq platform (js "curseforge") then
    {| author_name := js "From curseforge.com";
       author_iconURL := Some (js "https://i.imgur.com/uA9lFcz.png");
       author_url := Some (js "https://curseforge.com") |}
  else if strict_eq platform (js "modrinth") then
    {| author_name := js "From modrinth.com";
       author_iconURL := Some (js "https://i.imgur.com/2XDguyk.png");
       author_url := Some (js "https://modrinth.com") |}
  else
    {| author_name := js "From unknown source";
       author_iconURL := None;
       author_url := None |}.

Definition embedColorData (platform : jsstring) : jsstring :=
  if strict_eq platform (js "curseforge") then js "#f87a1b"
  else if strict_eq platform (js "modrinth") then js "#1bd96a"
  else js "DarkGreen".

Definition LT : Z := 60.         (* < *)
Definition GT : Z := 62.         (* > *)
Definition SEMICOLON : Z := 59.  (* ; *)
Definition LF : Z := 10.         (* the line feed, written \n in the source *)

(** [/<br>/g], [/<.*?>/g] and [/&\w*?;/g] *)
Definition br_regexp : regexp :=
  [One (Char LT); One (Char 98 (* b *)); One (Char 114 (* r *)); One (Char GT)].
Definition tag_regexp : regexp := [One (Char LT); LazyStar Dot; One (Char GT)].
Definition entity_regexp : regexp := [One (Char AMPERSAND); LazyStar Word; One (Char SEMICOLON)].

Definition formatHtmlChangelog (changelog : jsstring) : jsstring :=
  replace_all (replace_all (replace_all changelog br_regexp [LF]) tag_regexp []) entity_regexp [].

Definition trimChangelog (changelog : jsstring) (maxLength : Z) : jsstring :=
  let formattedChangelog := formatHtmlChangelog changelog in
  if maxLength <? Z.of_nat (length formattedChangelog)
  then slice formattedChangelog 0 (maxLength - 3) ++ js "..."
  else formattedChangelog.

(** ** The data of one update *)

(** An entry of [latestFiles] and of [latestFilesIndexes] of a CurseForge
    project. *)
Record File := {
  file_id : Z;
  fileDate : jsstring;
  displayName : jsstring;
  fileName : jsstring;
  releaseType : Z;
}.

Record FileIndex := { fileId : Z }.

Record Logo := { logo_url : jsstring }.

Record CurseForgeProject := {
  cf_id : Z;
  latestFiles : list File;
  logo : Logo;
  classId : Z;
  cf_slug : jsstring;
  latestFilesIndexes : list FileIndex;
}.

Record ModrinthProject := {
  mr_id : jsstring;
  icon_url : option jsstring;   (* null for a project without icon *)
  project_type : jsstring;
  mr_slug : jsstring;
}.

(** [requestedProject]: the project's API data, in the shape of the platform
    it was requested from. *)
Inductive RequestedProject :=
| CurseForge (p : CurseForgeProject)
| Modrinth (p : ModrinthProject).

(** [requestedProject.id] is a number on CurseForge and a string on
    Modrinth. *)
Inductive idValue :=
| NumId (n : Z)
| StrId (s : jsstring).

Definition project_id (requestedProject : RequestedProject) : idValue :=
  match requestedProject with
  | CurseForge p => NumId (cf_id p)
  | Modrinth p => StrId (mr_id p)
  end.

Definition project_slug (requestedProject : RequestedProject) : jsstring :=
  match requestedProject with
  | CurseForge p => cf_slug p
  | Modrinth p => mr_slug p
  end.

(** [dbProject]: the project's database data. *)
Record DbProject := {
  platform : jsstring;
  db_id : jsstring;
  db_name : jsstring;
}.

(** What a CurseForge changelog request and a Modrinth version listing carry
    in their bodies. *)
Record Changelog := { data : jsstring }.

Record Version := {
  version_changelog : jsstring;
  date_published : jsstring;
  version_name : jsstring;
  version_number : jsstring;
  version_type : jsstring;
}.

Record Response := {
  statusCode : Z;
  body : jsstring;
}.

(** [versionData] *)
Record VersionData := {
  changelog : jsstring;
  date : jsstring;
  iconURL : option jsstring;
  name : jsstring;
  number : jsstring;
  type : jsstring;
  url : jsstring;
}.

Record TrackedProject := {
  guildId : jsstring;
  channelId : jsstring;
}.

Record GuildSettings := {
  notificationStyle : jsstring;
  changelogMaxLength : Z;
}.

(** ** Messages, as the builders of discord.js assemble them

    A builder records what its setters are given. The setters of discord.js
    check what they are given (lengths, URLs, colours) and throw when a
    check fails; the checks themselves are outside the module, so the
    environment below says which calls are accepted. *)

Record Footer := {
  footer_text : jsstring;
  footer_iconURL : option jsstring;
}.

Record Field := {
  field_name : jsstring;
  field_value : jsstring;
}.

Record Embed := {
  embed_author : option AuthorData;
  embed_color : option jsstring;
  embed_description : option jsstring;
  embed_fields : list Field;
  embed_footer : option Footer;
  embed_thumbnail : option jsstring;
  embed_timestamp : bool;          (* set to the time of the call *)
  embed_title : option jsstring;
  embed_url : option jsstring;
}.

Inductive ButtonStyle := Primary | Secondary | Success | Danger | Link.

Record Button := {
  button_label : option jsstring;
  button_style : option ButtonStyle;
  button_url : option jsstring;
}.

Record Message := {
  embeds : list Embed;
  components : list (list Button);   (* action rows *)
}.

(** A call of a builder's method, with what it is given. *)
Inductive BuilderCall :=
| call_setAuthor (a : AuthorData)
| call_setColor (c : jsstring)
| call_setDescription (d : jsstring)
| call_setFields (fs : list Field)
| call_setFooter (f : Footer)
| call_setThumbnail (u : option jsstring)
| call_setTimestamp
| call_setTitle (t : jsstring)
| call_setURL (u : jsstring)
| call_Button_setLabel (l : jsstring)
| call_Button_setStyle (st : ButtonStyle)
| call_Button_setURL (u : jsstring)
| call_addComponents (bs : list Button).

(** ** The collaborators

    The upstream clients, the body decoder, the database and the formatting
    functions of dayjs and discord.js are outside the module: an environment
    gives their answers. The decoder [getJSONResponse] appears at the two
    types it is used at; [builder_accepts] says whether a builder's method
    takes what it is given or throws. *)

Record Env := {
  getModFileChangelog : Z -> Z -> option Response;       (* None: timed out *)
  listProjectVersions : idValue -> option Response;      (* None: timed out *)
  getJSONResponse_changelog : jsstring -> Changelog;
  getJSONResponse_versions : jsstring -> list Version;
  TrackedProjects_findAll : jsstring -> list TrackedProject;
  Guilds_findByPk : jsstring -> option GuildSettings;    (* None: null *)
  dayjs_format : jsstring -> jsstring;   (* dayjs(d).format('MMM D, YYYY') *)
  dayjs_unix : jsstring -> jsnumber;     (* dayjs(d).unix() *)
  codeBlock : jsstring -> jsstring;
  builder_accepts : BuilderCall -> bool;
}.

(** The client's cache: guilds by id, and in a guild its channels by id. A
    channel accepts a message or rejects it. *)
Record Channel := {
  channel_id : jsstring;
  accepts : Message -> bool;
}.

Record Guild := { channels_cache_get : jsstring -> option Channel }.

Record Client := { guilds_cache_get : jsstring -> option Guild }.

(** What an invocation does to the outside, in order. *)
Inductive event :=
| Fetch_getModFileChangelog (projectId fileId : Z)
| Fetch_listProjectVersions (projectId : idValue)
| Warn (msg : jsstring)
| Debug (versionData : VersionData)
| FindAll (projectId : jsstring)
| FindByPk (guildId : jsstring)
| Send (channelId : jsstring) (message : Message).

Inductive fault :=
| TypeError         (* a property of undefined or null was read *)
| ValidationError   (* a builder's method threw on what it was given *)
| SendRejected.     (* the promise of channel.send was rejected *)

(** ** Computations: a trace of events and how the function went on *)

Inductive outcome (A : Type) :=
| Value (a : A)        (* the statement completed *)
| Return               (* the function returned *)
| Throw (e : fault).   (* an exception propagates *)
Arguments Value {A} a.
Arguments Return {A}.
Arguments Throw {A} e.

Definition M (A : Type) : Type := outcome A * list event.

Definition ret {A} (a : A) : M A := (Value a, []).

Definition bind {A B} (m : M A) (k : A -> M B) : M B :=
  match m with
  | (Value a, t) => let (o, t') := k a in (o, t ++ t')
  | (Return, t) => (Return, t)
  | (Throw e, t) => (Throw e, t)
  end.

Notation "x <- m ;; k" := (bind m (fun x => k))
  (at level 61, m at next level, right associativity).
Notation "m ;; k" := (bind m (fun _ => k))
  (at level 61, right associativity).

Definition emit (e : event) : M unit := (Value tt, [e]).

(** An awaited call of a collaborator: the call is observed, the answer is
    the environment's. *)
Definition call {A} (e : event) (answer : A) : M A := (Value answer, [e]).

Definition warn (msg : jsstring) : M unit := emit (Warn msg).
Definition debug (versionData : VersionData) : M unit := emit (Debug versionData).

(** [return e;] *)
Definition return_ {A} : M A := (Return, []).

Definition throw {A} (e : fault) : M A := (Throw e, []).

(** Reading a property of [v]: a TypeError when [v] is undefined or null. *)
Definition deref {A} (v : option A) : M A :=
  match v with
  | Some a => ret a
  | None => throw TypeError
  end.

(** [l[i]]: undefined outside of the list. *)
Definition at_index {A} (l : list A) (i : Z) : option A :=
  if i <? 0 then None else nth_error l (Z.to_nat i).

(** [for (const x of l) body] *)
Fixpoint for_of {A} (l : list A) (body : A -> M unit) : M unit :=
  match l with
  | [] => ret tt
  | x :: l' => body x ;; for_of l' body
  end.

(** [await channel.send(message)] *)
Definition send (channel : Channel) (message : Message) : M unit :=
  (if accepts channel message then Value tt else Throw SendRejected,
   [Send (channel_id channel) message]).

(** ** The builders

    [new EmbedBuilder()], [new ButtonBuilder()] and [new ActionRowBuilder()]
    start empty; a method either records what it is given and returns the
    builder, or throws. *)

Definition validated {A} (accepted : bool) (a : A) : M A :=
  if accepted then ret a else throw ValidationError.

(** A method call on a builder: [b .> setTitle t] is [b.setTitle(t)]. *)
Notation "b .> f" := (bind b f) (at level 45, left associativity, only parsing).

Section Builders.

Variable env : Env.

Definition EmbedBuilder : M Embed :=
  ret {| embed_author := None; embed_color := None; embed_description := None;
         embed_fields := []; embed_footer := None; embed_thumbnail := None;
         embed_timestamp := false; embed_title := None; embed_url := None |}.

Definition setAuthor (a : AuthorData) (e : Embed) : M Embed :=
  validated (builder_accepts env (call_setAuthor a))
    {| embed_author := Some a; embed_color := embed_color e;
       embed_description := embed_description e; embed_fields := embed_fields e;
       embed_footer := embed_footer e; embed_thumbnail := embed_thumbnail e;
       embed_timestamp := embed_timestamp e; embed_title := embed_title e;
       embed_url := embed_url e |}.

Definition setColor (c : jsstring) (e : Embed) : M Embed :=
  validated (builder_accepts env (call_setColor c))
    {| embed_author := embed_author e; embed_color := Some c;
       embed_description := embed_description e; embed_fields := embed_fields e;
       embed_footer := embed_footer e; embed_thumbnail := embed_thumbnail e;
       embed_timestamp := embed_timestamp e; embed_title := embed_title e;
       embed_url := embed_url e |}.

Definition setDescription (d : jsstring) (e : Embed) : M Embed :=
  validated (builder_accepts env (call_setDescription d))
    {| embed_author := embed_author e; embed_color := embed_color e;
       embed_description := Some d; embed_fields := embed_fields e;
       embed_footer := embed_footer e; embed_thumbnail := embed_thumbnail e;
       embed_timestamp := embed_timestamp e; embed_title := embed_title e;
       embed_url := embed_url e |}.

Definition setFields (fs : list Field) (e : Embed) : M Embed :=
  validated (builder_accepts env (call_setFields fs))
    {| embed_author := embed_author e; embed_color := embed_color e;
       embed_description := embed_description e; embed_fields := fs;
       embed_footer := embed_footer e; embed_thumbnail := embed_thumbnail e;
       embed_timestamp := embed_timestamp e; embed_title := embed_title e;
       embed_url := embed_url e |}.

Definition setFooter (f : Footer) (e : Embed) : M Embed :=
  validated (builder_accepts env (call_setFooter f))
    {| embed_author := embed_author e; embed_color := embed_color e;
       embed_description := embed_description e; embed_fields := embed_fields e;
       embed_footer := Some f; embed_thumbnail := embed_thumbnail e;
       embed_timestamp := embed_timestamp e; embed_title := embed_title e;
       embed_url := embed_url e |}.

Definition setThumbnail (u : option jsstring) (e : Embed) : M Embed :=
  validated (builder_accepts env (call_setThumbnail u))
    {| embed_author := embed_author e; embed_color := embed_color e;
       embed_description := embed_description e; embed_fields := embed_fields e;
       embed_footer := embed_footer e; embed_thumbnail := u;
       embed_timestamp := embed_timestamp e; embed_title := embed_title e;
       embed_url := embed_url e |}.

Definition setTimestamp (e : Embed) : M Embed :=
  validated (builder_accepts env (call_setTimestamp))
    {| embed_author := embed_author e; embed_color := embed_color e;
       embed_description := embed_description e; embed_fields := embed_fields e;
       embed_footer := embed_footer e; embed_thumbnail := embed_thumbnail e;
       embed_timestamp := true; embed_title := embed_title e;
       embed_url := embed_url e |}.

Definition setTitle (t : jsstring) (e : Embed) : M Embed :=
  validated (builder_accepts env (call_setTitle t))
    {| embed_author := embed_author e; embed_color := embed_color e;
       embed_description := embed_description e; embed_fields := embed_fields e;
       embed_footer := embed_footer e; embed_thumbnail := embed_thumbnail e;
       embed_timestamp := embed_timestamp e; embed_title := Some t;
       embed_url := embed_url e |}.

Definition setURL (u : jsstring) (e : Embed) : M Embed :=
  validated (builder_accepts env (call_setURL u))
    {| embed_author := embed_author e; embed_color := embed_color e;
       embed_description := embed_description e; embed_fields := embed_fields e;
       embed_footer := embed_footer e; embed_thumbnail := embed_thumbnail e;
       embed_timestamp := embed_timestamp e; embed_title := embed_title e;
       embed_url := Some u |}.

Definition ButtonBuilder : M Button :=
  ret {| button_label := None; button_style := None; button_url := None |}.

Definition Button_setLabel (l : jsstring) (b : Button) : M Button :=
  validated (builder_accepts env (call_Button_setLabel l))
    {| button_label := Some l; button_style := button_style b; button_url := button_url b |}.

Definition Button_setStyle (st : ButtonStyle) (b : Button) : M Button :=
  validated (builder_accepts env (call_Button_setStyle st))
    {| button_label := button_label b; button_style := Some st; button_url := button_url b |}.

Definition Button_setURL (u : jsstring) (b : Button) : M Button :=
  validated (builder_accepts env (call_Button_setURL u))
    {| button_label := button_label b; button_style := button_style b; button_url := Some u |}.

Definition ActionRowBuilder : M (list Button) := ret [].

Definition addComponents (bs : list Button) (row : list Button) : M (list Button) :=
  validated (builder_accepts env (call_addComponents bs)) (row ++ bs).

End Builders.

(** ** [sendUpdateEmbed] *)

Section SendUpdateEmbed.

Variable env : Env.

(** The [switch] on the platform, lines 18 to 65: the version data, unless
    the function returns or throws. *)
Definition getVersionData (requestedProject : RequestedProject) (dbProject : DbProject)
  : M VersionData :=
  if strict_eq (platform dbProject) (js "curseforge") then
    match requestedProject with
    | Modrinth _ => throw TypeError   (* latestFiles is undefined *)
    | CurseForge p =>
        latestFile <- deref (at_index (latestFiles p) (Z.of_nat (length (latestFiles p)) - 1)) ;;
        response <- call (Fetch_getModFileChangelog (cf_id p) (file_id latestFile))
                         (getModFileChangelog env (cf_id p) (file_id latestFile)) ;;
        match response with
        | None =>
            warn (js "A request to CurseForge timed out while getting a project file's changelog") ;;
            return_
        | Some response =>
            if negb (statusCode response =? 200) then
              warn (js "Unexpected " ++ ToString (Some (statusCode response))
                      ++ js " status code while getting a project files's changelog.") ;;
              return_
            else
              let rawData := getJSONResponse_changelog env (body response) in
              firstIndex <- deref (at_index (latestFilesIndexes p) 0) ;;
              let versionData :=
                {| changelog := data rawData;
                   date := fileDate latestFile;
                   iconURL := Some (logo_url (logo p));
                   name := displayName latestFile;
                   number := fileName latestFile;
                   type := capitalize (releaseTypeToString (releaseType latestFile));
                   url := js "https://www.curseforge.com/minecraft/"
                            ++ classIdToUrlString (classId p) ++ js "/" ++ cf_slug p
                            ++ js "/files/" ++ ToString (Some (fileId firstIndex)) |} in
              debug versionData ;;
              ret versionData
        end
    end
  else if strict_eq (platform dbProject) (js "modrinth") then
    response <- call (Fetch_listProjectVersions (project_id requestedProject))
                     (listProjectVersions env (project_id requestedProject)) ;;
    match response with
    | None =>
        warn (js "A request to Modrinth timed out while getting a project's version information") ;;
        return_
    | Some response =>
        if negb (statusCode response =? 200) then
          warn (js "Unexpected " ++ ToString (Some (statusCode response))
                  ++ js " status code while getting a project's version information.") ;;
          return_
        else
          let rawData := getJSONResponse_versions env (body response) in
          first <- deref (at_index rawData 0) ;;
          let versionData :=
            {| changelog := version_changelog first;
               date := date_published first;
               iconURL := match requestedProject with
                          | Modrinth p => icon_url p
                          | CurseForge _ => None   (* no such property *)
                          end;
               name := version_name first;
               number := version_number first;
               type := capitalize (version_type first);
               url := js "https://modrinth.com/"
                        ++ match requestedProject with
                           | Modrinth p => project_type p
                           | CurseForge _ => js "undefined"   (* no such property *)
                           end
                        ++ js "/" ++ project_slug requestedProject
                        ++ js "/version/" ++ version_number first |} in
          debug versionData ;;
          ret versionData
    end
  else
    warn (js "Update notification functionality has not been implemented for this platform yet.") ;;
    return_.

(** The message of the compact style, lines 88 to 100. *)
Definition compactMessage (dbProject : DbProject) (versionData : VersionData) : M Message :=
  embed <- EmbedBuilder
             .> setColor env (embedColorData (platform dbProject))
             .> setDescription env
                  (number versionData ++ js " (" ++ type versionData ++ js ")")
             .> setFooter env
                  {| footer_text := dayjs_format env (date versionData);
                     footer_iconURL := author_iconURL (embedAuthorData (platform dbProject)) |}
             .> setTitle env (db_name dbProject ++ js " " ++ name versionData)
             .> setURL env (url versionData) ;;
  ret {| embeds := [embed]; components := [] |}.

(** The message of the default style, lines 103 to 139. *)
Definition fullMessage (dbProject : DbProject) (versionData : VersionData)
    (guildSettings : GuildSettings) : M Message :=
  embed <- EmbedBuilder
             .> setAuthor env (embedAuthorData (platform dbProject))
             .> setColor env (embedColorData (platform dbProject))
             .> setDescription env
                  (js "**Changelog**: "
                     ++ codeBlock env (trimChangelog (changelog versionData)
                                                     (changelogMaxLength guildSettings)))
             .> setFields env
                  [ {| field_name := js "Version Name"; field_value := name versionData |};
                    {| field_name := js "Version Number"; field_value := number versionData |};
                    {| field_name := js "Release Type"; field_value := type versionData |};
                    {| field_name := js "Date Published";
                       field_value := js "<t:" ++ ToString (dayjs_unix env (date versionData))
                                        ++ js ":f>" |} ]
             .> setThumbnail env (iconURL versionData)
             .> setTimestamp env
             .> setTitle env (db_name dbProject ++ js " has been updated") ;;
  button <- ButtonBuilder
              .> Button_setLabel env (js "View on " ++ capitalize (platform dbProject))
              .> Button_setStyle env Link
              .> Button_setURL env (url versionData) ;;
  row <- ActionRowBuilder .> addComponents env [button] ;;
  ret {| embeds := [embed]; components := [row] |}.

(** The body of the loop over the tracked projects, lines 75 to 140. *)
Definition notifyTrackedProject (dbProject : DbProject) (client : Client)
    (versionData : VersionData) (trackedProject : TrackedProject) : M unit :=
  match guilds_cache_get client (guildId trackedProject) with
  | None =>
      warn (js "Could not find guild with ID " ++ guildId trackedProject
              ++ js " in cache. Update notification not sent.")
      (* continue *)
  | Some guild =>
      match channels_cache_get guild (channelId trackedProject) with
      | None =>
          warn (js "Could not find channel with ID " ++ channelId trackedProject
                  ++ js " in cache. Update notification not sent.")
          (* continue *)
      | Some channel =>
          guildSettings <- call (FindByPk (guildId trackedProject))
                                (Guilds_findByPk env (guildId trackedProject)) ;;
          guildSettings <- deref guildSettings ;;
          if strict_eq (notificationStyle guildSettings) (js "compact")
          then message <- compactMessage dbProject versionData ;;
               send channel message
          else message <- fullMessage dbProject versionData guildSettings ;;
               send channel message
      end
  end.

Definition sendUpdateEmbed (requestedProject : RequestedProject) (dbProject : DbProject)
    (client : Client) : M unit :=
  versionData <- getVersionData requestedProject dbProject ;;
  trackedProjects <- call (FindAll (db_id dbProject))
                          (TrackedProjects_findAll env (db_id dbProject)) ;;
  for_of trackedProjects (notifyTrackedProject dbProject client versionData).

End SendUpdateEmbed.

(** ** The helpers as the specification words them

    These definitions follow the specification, not the source; the theorems
    below compare the source's helpers with them. *)

Module Stated.

(** The upper case of an ASCII code unit: the letters a to z have theirs 32
    below, every other one is its own upper case. The theorems use it on
    ASCII only. *)
Definition toUpperCase (c : Z) : Z :=
  if (97 <=? c) && (c <=? 122) then c - 32 else c.

(** "uppercase the first character only, leave the rest unchanged" *)
Definition capitalize (s : jsstring) : jsstring :=
  match s with
  | [] => []
  | c :: rest => toUpperCase c :: rest
  end.

(** "if the text exceeds maxLength characters, cut to maxLength - 3
    characters and append ...; otherwise return unchanged"; a cut to less
    than no character leaves none. *)
Definition truncate (text : jsstring) (maxLength : Z) : jsstring :=
  if maxLength <? Z.of_nat (length text)
  then firstn (Z.to_nat (maxLength - 3)) text ++ js "..."
  else text.

(** "replace literal tags with newlines": every occurrence of the non-empty
    [tag], from left to right, becomes [by_]. *)
Equations? replace_literal (tag by_ s : jsstring) : jsstring by wf (length s) lt :=
  replace_literal tag by_ [] := [];
  replace_literal tag by_ (c :: s') with starts_with tag (c :: s') => {
    | true := by_ ++ replace_literal tag by_ (skipn (pred (length tag)) s')
    | false := c :: replace_literal tag by_ s' }.
Proof.
  pose proof (length_skipn (pred (length tag)) s'). simpl. lia.
Qed.

(** The place of the first [close] in [s], when only code units that may
    stand inside come before it. *)
Fixpoint find_close (inside : Z -> bool) (close : Z) (s : jsstring) : option nat :=
  match s with
  | [] => None
  | c :: s' =>
      if c =? close then Some 0%nat
      else if inside c then option_map S (find_close inside close s')
      else None
  end.

(** "remove all substrings matching [open ... close]": from left to right,
    an [open] that is closed is removed together with everything up to and
    including the first [close] after it. *)
Equations? remove_enclosed (open : Z) (inside : Z -> bool) (close : Z) (s : jsstring)
  : jsstring by wf (length s) lt :=
  remove_enclosed open inside close [] := [];
  remove_enclosed open inside close (c :: s') with c =? open => {
    | false := c :: remove_enclosed open inside close s'
    | true with find_close inside close s' => {
      | Some n := remove_enclosed open inside close (skipn (S n) s')
      | None := c :: remove_enclosed open inside close s' } }.
Proof.
  pose proof (length_skipn (S n) s'). simpl in *. lia.
Qed.

(** [stripHtml] with anything between [<] and [>], as the specification's
    [<...>] reads. *)
Definition stripHtml (text : jsstring) : jsstring :=
  remove_enclosed AMPERSAND is_word_char SEMICOLON
    (remove_enclosed LT (fun _ => true) GT
       (replace_literal (js "<br>") [LF] text)).

(** [stripHtml] where a tag does not run over the end of a line and an
    entity name is made of word characters. *)
Definition stripHtml_in_line (text : jsstring) : jsstring :=
  remove_enclosed AMPERSAND is_word_char SEMICOLON
    (remove_enclosed LT (fun c => negb (is_line_terminator c)) GT
       (replace_literal (js "<br>") [LF] text)).

End Stated.

(** What may stand in a tag: anything but a line terminator. *)
Abbreviation in_line := (fun c : Z => negb (is_line_terminator c)) (only parsing).

(** No [<] of [s] is closed by a [>] on its line. *)
Fixpoint tag_free (s : jsstring) : Prop :=
  match s with
  | [] => True
  | c :: s' => (c = LT -> Stated.find_close in_line GT s' = None) /\ tag_free s'
  end.

(** ** Reading a trace *)

Definition is_fetch (e : event) : bool :=
  match e with
  | Fetch_getModFileChangelog _ _ | Fetch_listProjectVersions _ => true
  | _ => false
  end.

Definition is_warn (e : event) : bool :=
  match e with
  | Warn _ => true
  | _ => false
  end.

Definition is_send (e : event) : bool :=
  match e with
  | Send _ _ => true
  | _ => false
  end.

Definition is_debug (e : event) : bool :=
  match e with
  | Debug _ => true
  | _ => false
  end.

Definition count (p : event -> bool) (t : list event) : nat := length (filter p t).

Section Reading.

Variable env : Env.

(** The request [sendUpdateEmbed] makes upstream for a project of a supported
    platform, and the answer it gets. *)
Inductive upstream_reply : RequestedProject -> DbProject -> event -> option Response -> Prop :=
| reply_curseforge p dbProject files latestFile :
    platform dbProject = js "curseforge" ->
    latestFiles p = files ++ [latestFile] ->
    upstream_reply (CurseForge p) dbProject
      (Fetch_getModFileChangelog (cf_id p) (file_id latestFile))
      (getModFileChangelog env (cf_id p) (file_id latestFile))
| reply_modrinth requestedProject dbProject :
    platform dbProject = js "modrinth" ->
    upstream_reply requestedProject dbProject
      (Fetch_listProjectVersions (project_id requestedProject))
      (listProjectVersions env (project_id requestedProject)).

(** A successful answer carries what the version data is read from: a
    CurseForge project has a first file index, a Modrinth listing a first
    version. *)
Definition carries_version (requestedProject : RequestedProject) (dbProject : DbProject)
    (response : Response) : Prop :=
  if strict_eq (platform dbProject) (js "curseforge") then
    match requestedProject with
    | CurseForge p => latestFilesIndexes p <> []
    | Modrinth _ => False
    end
  else getJSONResponse_versions env (body response) <> [].

(** A message is built from [versionData] when it is the compact or the
    full message of that version data, as the builders return it. *)
Definition built_from (dbProject : DbProject) (versionData : VersionData) (m : Message) : Prop :=
  compactMessage env dbProject versionData = (Value m, [])
  \/ exists guildSettings,
       fullMessage env dbProject versionData guildSettings = (Value m, []).

(** What the loop over the destinations may do: warn, read the settings of a
    guild, and send messages built from [versionData]. *)
Definition delivery_event (dbProject : DbProject) (versionData : VersionData) (e : event) : Prop :=
  match e with
  | Warn _ | FindByPk _ => True
  | Send _ m => built_from dbProject versionData m
  | _ => False
  end.

(** The guild of a tracked row, or its channel in that guild, is not in the
    client's cache. *)
Definition not_in_cache (client : Client) (trackedProject : TrackedProject) : Prop :=
  match guilds_cache_get client (guildId trackedProject) with
  | None => True
  | Some guild => channels_cache_get guild (channelId trackedProject) = None
  end.

(** The loop of [sendUpdateEmbed] over a list of tracked rows. *)
Definition deliver (dbProject : DbProject) (client : Client) (versionData : VersionData)
    (trackedProjects : list TrackedProject) : M unit :=
  for_of trackedProjects (notifyTrackedProject env dbProject client versionData).

End Reading.

(** ** A sample invocation

    A CurseForge project with two files, tracked by four rows: one whose
    guild is not in the cache, one whose channel is not, one of a guild with
    the compact style and one of a guild with the default style. *)

Module Sample.

Definition env : Env :=
  {| getModFileChangelog := fun projectId _ =>
       if projectId =? 238222 then Some {| statusCode := 200; body := js "{}" |}
       else if projectId =? 404 then Some {| statusCode := 404; body := [] |}
       else None;
     listProjectVersions := fun projectId =>
       match projectId with
       | StrId _ => Some {| statusCode := 200; body := js "[]" |}
       | NumId _ => None
       end;
     getJSONResponse_changelog := fun _ =>
       {| data := js "Fixed bug<br>Added feature &amp; more <b>bold</b>" |};
     getJSONResponse_versions := fun _ =>
       [ {| version_changelog := js "Fixes";
            date_published := js "2023-04-01T12:00:00Z";
            version_name := js "Sodium 0.4.10";
            version_number := js "mc1.19.4-0.4.10";
            version_type := js "release" |} ];
     TrackedProjects_findAll := fun _ =>
       [ {| guildId := js "g0"; channelId := js "c0" |};
         {| guildId := js "g1"; channelId := js "c9" |};
         {| guildId := js "g1"; channelId := js "c1" |};
         {| guildId := js "g2"; channelId := js "c2" |} ];
     Guilds_findByPk := fun guildId =>
       Some {| notificationStyle :=
                 if strict_eq guildId (js "g1") then js "compact" else js "normal";
               changelogMaxLength := 10 |};
     dayjs_format := fun date => date;
     dayjs_unix := fun _ => Some 1680350400;
     codeBlock := fun content => js "```" ++ [LF] ++ content ++ [LF] ++ js "```";
     builder_accepts := fun _ => true |}.

Definition channel (id : jsstring) : Channel :=
  {| channel_id := id; accepts := fun _ => true |}.

Definition client : Client :=
  {| guilds_cache_get := fun guildId =>
       if strict_eq guildId (js "g1") then
         Some {| channels_cache_get := fun channelId =>
                   if strict_eq channelId (js "c1") then Some (channel (js "c1")) else None |}
       else if strict_eq guildId (js "g2") then
         Some {| channels_cache_get := fun channelId =>
                   if strict_eq channelId (js "c2") then Some (channel (js "c2")) else None |}
       else None |}.

Definition older : File :=
  {| file_id := 4600; fileDate := js "2023-03-01T12:00:00Z";
     displayName := js "JEI 12.0"; fileName := js "jei-12.0.jar"; releaseType := 1 |}.

Definition newest : File :=
  {| file_id := 4713; fileDate := js "2023-04-01T12:00:00Z";
     displayName := js "JEI 12.1"; fileName := js "jei-12.1.jar"; releaseType := 2 |}.

Definition project (id : Z) : CurseForgeProject :=
  {| cf_id := id;
     latestFiles := [older; newest];
     logo := {| logo_url := js "https://media.forgecdn.net/jei.png" |};
     classId := 6;
     cf_slug := js "jei";
     latestFilesIndexes := [ {| fileId := 4712 |}; {| fileId := 4600 |} ] |}.

Definition dbProject : DbProject :=
  {| platform := js "curseforge"; db_id := js "238222"; db_name := js "JEI" |}.

Definition versionData : VersionData :=
  {| changelog := js "Fixed bug<br>Added feature &amp; more <b>bold</b>";
     date := js "2023-04-01T12:00:00Z";
     iconURL := Some (js "https://media.forgecdn.net/jei.png");
     name := js "JEI 12.1";
     number := js "jei-12.1.jar";
     type := js "Beta";
     url := js "https://www.curseforge.com/minecraft/mc-mods/jei/files/4712" |}.

End Sample.

(** ** Destinations and styles *)

(** The channel a tracked row leads to, when its guild and then its channel
    are in the client's cache. *)
Definition destination (client : Client) (trackedProject : TrackedProject) : option Channel :=
  match guilds_cache_get client (guildId trackedProject) with
  | None => None
  | Some guild => channels_cache_get guild (channelId trackedProject)
  end.

(** The message the [switch] on the notification style sends, lines 86 to
    140. *)
Definition styledMessage (env : Env) (dbProject : DbProject) (versionData : VersionData)
    (guildSettings : GuildSettings) : M Message :=
  if strict_eq (notificationStyle guildSettings) (js "compact")
  then compactMessage env dbProject versionData
  else fullMessage env dbProject versionData guildSettings.

(** How a chain of builder calls ends: with what was built, or with the
    exception of a call that was not accepted; nothing is observed outside. *)
Definition builds_to {A} (m : M A) (a : A) : Prop :=
  m = (Value a, []) \/ m = (Throw ValidationError, []).

(** The two messages as they are when every builder call is accepted. *)
Definition compactContent (env : Env) (dbProject : DbProject) (versionData : VersionData)
  : Message :=
  {| embeds :=
       [ {| embed_author := None;
            embed_color := Some (embedColorData (platform dbProject));
            embed_description :=
              Some (number versionData ++ js " (" ++ type versionData ++ js ")");
            embed_fields := [];
            embed_footer :=
              Some {| footer_text := dayjs_format env (date versionData);
                      footer_iconURL :=
                        author_iconURL (embedAuthorData (platform dbProject)) |};
            embed_thumbnail := None;
            embed_timestamp := false;
            embed_title := Some (db_name dbProject ++ js " " ++ name versionData);
            embed_url := Some (url versionData) |} ];
     components := [] |}.

Definition fullContent (env : Env) (dbProject : DbProject) (versionData : VersionData)
    (guildSettings : GuildSettings) : Message :=
  {| embeds :=
       [ {| embed_author := Some (embedAuthorData (platform dbProject));
            embed_color := Some (embedColorData (platform dbProject));
            embed_description :=
              Some (js "**Changelog**: "
                      ++ codeBlock env (trimChangelog (changelog versionData)
                                                      (changelogMaxLength guildSettings)));
            embed_fields :=
              [ {| field_name := js "Version Name"; field_value := name versionData |};
                {| field_name := js "Version Number"; field_value := number versionData |};
                {| field_name := js "Release Type"; field_value := type versionData |};
                {| field_name := js "Date Published";
                   field_value := js "<t:" ++ ToString (dayjs_unix env (date versionData))
                                    ++ js ":f>" |} ];
            embed_footer := None;
            embed_thumbnail := iconURL versionData;
            embed_timestamp := true;
            embed_title := Some (db_name dbProject ++ js " has been updated");
            embed_url := None |} ];
     components :=
       [ [ {| button_label := Some (js "View on " ++ capitalize (platform dbProject));
              button_style := Some Link;
              button_url := Some (url versionData) |} ] ] |}.

(** The channels a trace sends to, in order, and the cached channels of a
    list of tracked rows, in order. *)
Definition sent_to (t : list event) : list jsstring :=
  flat_map (fun e => match e with Send channelId _ => [channelId] | _ => [] end) t.

Definition destinations (client : Client) (rows : list TrackedProject) : list jsstring :=
  flat_map (fun row => match destination client row with
                       | Some channel => [channel_id channel]
                       | None => []
                       end) rows.

(** ** Further sample invocations *)

Module Cases.

(** The sample environment with other tracked rows and other settings. *)
Definition env_of (rows : list TrackedProject) (settings : jsstring -> option GuildSettings)
  : Env :=
  {| getModFileChangelog := getModFileChangelog Sample.env;
     listProjectVersions := listProjectVersions Sample.env;
     getJSONResponse_changelog := getJSONResponse_changelog Sample.env;
     getJSONResponse_versions := getJSONResponse_versions Sample.env;
     TrackedProjects_findAll := fun _ => rows;
     Guilds_findByPk := settings;
     dayjs_format := dayjs_format Sample.env;
     dayjs_unix := dayjs_unix Sample.env;
     codeBlock := codeBlock Sample.env;
     builder_accepts := builder_accepts Sample.env |}.

Definition rows : list TrackedProject :=
  [ {| guildId := js "g0"; channelId := js "c0" |};
    {| guildId := js "g1"; channelId := js "c1" |};
    {| guildId := js "g2"; channelId := js "c2" |} ].

(** A client whose channels reject every message. *)
Definition closed_channel (id : jsstring) : Channel :=
  {| channel_id := id; accepts := fun _ => false |}.

Definition closed_client : Client :=
  {| guilds_cache_get := fun guildId =>
       if strict_eq guildId (js "g1") then
         Some {| channels_cache_get := fun channelId =>
                   if strict_eq channelId (js "c1") then Some (closed_channel (js "c1"))
                   else None |}
       else None |}.

(** A CurseForge project without files, and one without file indexes. *)
Definition no_files : CurseForgeProject :=
  {| cf_id := 238222; latestFiles := [];
     logo := {| logo_url := js "https://media.forgecdn.net/jei.png" |};
     classId := 6; cf_slug := js "jei";
     latestFilesIndexes := [ {| fileId := 4712 |} ] |}.

Definition no_indexes : CurseForgeProject :=
  {| cf_id := 238222; latestFiles := [Sample.older; Sample.newest];
     logo := {| logo_url := js "https://media.forgecdn.net/jei.png" |};
     classId := 6; cf_slug := js "jei";
     latestFilesIndexes := [] |}.

Definition sodium : ModrinthProject :=
  {| mr_id := js "AANobbMI";
     icon_url := Some (js "https://cdn.modrinth.com/data/AANobbMI/icon.png");
     project_type := js "mod";
     mr_slug := js "sodium" |}.

Definition modrinth_db : DbProject :=
  {| platform := js "modrinth"; db_id := js "AANobbMI"; db_name := js "Sodium" |}.

Definition other_db : DbProject :=
  {| platform := js "ftb"; db_id := js "1"; db_name := js "Pack" |}.

(** The sample environment with builders that throw on a thumbnail. *)
Definition no_thumbnail_env : Env :=
  {| getModFileChangelog := getModFileChangelog Sample.env;
     listProjectVersions := listProjectVersions Sample.env;
     getJSONResponse_changelog := getJSONResponse_changelog Sample.env;
     getJSONResponse_versions := getJSONResponse_versions Sample.env;
     TrackedProjects_findAll := fun _ => rows;
     Guilds_findByPk := Guilds_findByPk Sample.env;
     dayjs_format := dayjs_format Sample.env;
     dayjs_unix := dayjs_unix Sample.env;
     codeBlock := codeBlock Sample.env;
     builder_accepts := fun call =>
       match call with
       | call_setThumbnail _ => false
       | _ => true
       end |}.

End Cases.

(** * Properties *)

(** ** Strings and regular expressions *)

Lemma GetSubstitution_single matched before after c :
  GetSubstitution matched before after [c] = [c].
Proof.
  simpl. destruct (c =? DOLLAR); reflexivity.
Qed.

Lemma replace_from_nil r v before :
  replace_from r v before [] =
  match match_here r [] with
  | Some _ => GetSubstitution [] before [] v
  | None => []
  end.
Proof.
  rewrite replace_from_equation_1. destruct (match_here r []); reflexivity.
Qed.

Lemma replace_from_cons r v before c s :
  replace_from r v before (c :: s) =
  match match_here r (c :: s) with
  | None => c :: replace_from r v (before ++ [c]) s
  | Some 0%nat =>
      GetSubstitution [] before (c :: s) v ++ c :: replace_from r v (before ++ [c]) s
  | Some (S n) =>
      GetSubstitution (c :: firstn n s) before (skipn n s) v
        ++ replace_from r v (before ++ c :: firstn n s) (skipn n s)
  end.
Proof.
  rewrite replace_from_equation_2.
  destruct (match_here r (c :: s)) as [[|n]|]; reflexivity.
Qed.

Lemma replace_literal_cons tag by_ c s :
  Stated.replace_literal tag by_ (c :: s) =
  if starts_with tag (c :: s)
  then by_ ++ Stated.replace_literal tag by_ (skipn (pred (length tag)) s)
  else c :: Stated.replace_literal tag by_ s.
Proof.
  rewrite Stated.replace_literal_equation_2.
  destruct (starts_with tag (c :: s)); reflexivity.
Qed.

Lemma remove_enclosed_cons open inside close c s :
  Stated.remove_enclosed open inside close (c :: s) =
  if c =? open then
    match Stated.find_close inside close s with
    | Some n => Stated.remove_enclosed open inside close (skipn (S n) s)
    | None => c :: Stated.remove_enclosed open inside close s
    end
  else c :: Stated.remove_enclosed open inside close s.
Proof.
  rewrite Stated.remove_enclosed_equation_2.
  destruct (c =? open); [|reflexivity].
  simpl. destruct (Stated.find_close inside close s); reflexivity.
Qed.

(** The matcher on [/<br>/]: the four code units, or nothing. *)
Lemma match_here_br s :
  match_here br_regexp s = if starts_with (js "<br>") s then Some 4%nat else None.
Proof.
  change (js "<br>") with [LT; 98; 114; GT]. unfold br_regexp.
  destruct s as [|a [|b [|c [|d s]]]]; simpl;
    repeat match goal with
           | |- context [?x =? ?y] => destruct (x =? y); simpl
           end; reflexivity.
Qed.

(** The lazy star before a closing code unit stops at the first one. *)
Lemma lazy_star_find_close ok close k s :
  (forall t, k t = match t with
                   | [] => None
                   | c :: _ => if c =? close then Some 1%nat else None
                   end) ->
  lazy_star ok k s = option_map S (Stated.find_close ok close s).
Proof.
  intros Hk. induction s as [|c s IH]; cbn [lazy_star Stated.find_close]; rewrite Hk.
  - reflexivity.
  - destruct (c =? close); [reflexivity|].
    destruct (ok c); [|reflexivity].
    rewrite IH. reflexivity.
Qed.

Lemma match_here_close close t :
  match_here [One (Char close)] t
  = match t with
    | [] => None
    | c :: _ => if c =? close then Some 1%nat else None
    end.
Proof.
  destruct t as [|c t]; [reflexivity|].
  cbn [match_here in_charset]. destruct (c =? close); reflexivity.
Qed.

(** The matcher on [open cs*? close]. *)
Lemma match_here_enclosed open cs close c s :
  match_here [One (Char open); LazyStar cs; One (Char close)] (c :: s)
  = if c =? open
    then option_map (fun n => S (S n)) (Stated.find_close (in_charset cs) close s)
    else None.
Proof.
  change (match_here [One (Char open); LazyStar cs; One (Char close)] (c :: s))
    with (if c =? open
          then option_map S (lazy_star (in_charset cs) (match_here [One (Char close)]) s)
          else None).
  destruct (c =? open); [|reflexivity].
  rewrite (lazy_star_find_close _ close) by apply match_here_close.
  destruct (Stated.find_close (in_charset cs) close s); reflexivity.
Qed.

(** [s.replace(/<br>/g, '\n')] replaces every occurrence of the tag. *)
Lemma replace_from_br before s :
  replace_from br_regexp [LF] before s = Stated.replace_literal (js "<br>") [LF] s.
Proof.
  revert before.
  induction s as [s IH] using (induction_ltof1 _ (@length Z)); unfold ltof in IH.
  intros before. destruct s as [|c s].
  - rewrite replace_from_nil. reflexivity.
  - rewrite replace_from_cons, replace_literal_cons, match_here_br.
    destruct (starts_with (js "<br>") (c :: s)) eqn:E.
    + rewrite GetSubstitution_single.
      rewrite IH; [reflexivity|]. rewrite length_skipn. simpl. lia.
    + rewrite IH; [reflexivity|]. simpl. lia.
Qed.

(** [s.replace(/open cs*? close/g, '')] removes every enclosed stretch. *)
Lemma replace_from_enclosed open cs close before s :
  replace_from [One (Char open); LazyStar cs; One (Char close)] [] before s
  = Stated.remove_enclosed open (in_charset cs) close s.
Proof.
  revert before.
  induction s as [s IH] using (induction_ltof1 _ (@length Z)); unfold ltof in IH.
  intros before. destruct s as [|c s].
  - rewrite replace_from_nil. reflexivity.
  - rewrite replace_from_cons, remove_enclosed_cons, match_here_enclosed.
    destruct (c =? open).
    + destruct (Stated.find_close (in_charset cs) close s) as [n|]; simpl option_map; cbv iota.
      * cbn [GetSubstitution app]. apply IH.
        rewrite length_skipn. simpl. lia.
      * rewrite IH; [reflexivity|]. simpl. lia.
    + rewrite IH; [reflexivity|]. simpl. lia.
Qed.

(** The three replacements of [formatHtmlChangelog], one after the other. *)
Lemma formatHtmlChangelog_passes changelog :
  formatHtmlChangelog changelog = Stated.stripHtml_in_line changelog.
Proof.
  unfold formatHtmlChangelog, Stated.stripHtml_in_line, replace_all.
  rewrite replace_from_br.
  unfold tag_regexp, entity_regexp.
  rewrite !replace_from_enclosed. reflexivity.
Qed.

Lemma slice_from_start s end_ :
  slice s 0 end_
  = firstn (Z.to_nat (if end_ <? 0 then Z.of_nat (length s) + end_ else end_)) s.
Proof.
  unfold slice. change (0 <? 0) with false. cbv iota.
  rewrite (Z.min_l 0) by lia.
  destruct (end_ <? 0) eqn:E.
  - apply Z.ltb_lt in E. destruct (Z.max_spec (Z.of_nat (length s) + end_) 0) as [[H ->]|[H ->]].
    + replace (Z.to_nat (Z.of_nat (length s) + end_)) with 0%nat by lia. reflexivity.
    + destruct (_ <=? 0) eqn:F.
      * apply Z.leb_le in F.
        replace (Z.to_nat (Z.of_nat (length s) + end_)) with 0%nat by lia. reflexivity.
      * rewrite Z.sub_0_r. reflexivity.
  - apply Z.ltb_ge in E. destruct (Z.min_spec end_ (Z.of_nat (length s))) as [[H ->]|[H ->]].
    + destruct (end_ <=? 0) eqn:F.
      * apply Z.leb_le in F. replace end_ with 0 by lia. reflexivity.
      * rewrite Z.sub_0_r. reflexivity.
    + destruct (_ <=? 0) eqn:F.
      * apply Z.leb_le in F. destruct s; [|simpl in F; lia].
        rewrite firstn_nil. reflexivity.
      * rewrite Z.sub_0_r, Nat2Z.id. change (skipn (Z.to_nat 0) s) with s.
        rewrite firstn_all. symmetry. apply firstn_all2. lia.
Qed.

(** ** The formatting helpers *)

(** C8: [classIdToUrlString] maps 5, 6, 12, 17, 4471, 4546 and 4559 to
    bukkit-plugins, mc-mods, texture-packs, worlds, modpacks, customization
    and mc-addons, and every other code to one fallback marker, the literal
    [unknownClassIdValue], which begins with "unknown" and is none of the
    seven segments. *)
Theorem classIdToUrlString_table :
  classIdToUrlString 5 = js "bukkit-plugins"
  /\ classIdToUrlString 6 = js "mc-mods"
  /\ classIdToUrlString 12 = js "texture-packs"
  /\ classIdToUrlString 17 = js "worlds"
  /\ classIdToUrlString 4471 = js "modpacks"
  /\ classIdToUrlString 4546 = js "customization"
  /\ classIdToUrlString 4559 = js "mc-addons"
  /\ (forall classId, ~ In classId [5; 6; 12; 17; 4471; 4546; 4559] ->
      classIdToUrlString classId = js "unknownClassIdValue")
  /\ starts_with (js "unknown") (js "unknownClassIdValue") = true
  /\ ~ In (js "unknownClassIdValue")
          (map classIdToUrlString [5; 6; 12; 17; 4471; 4546; 4559]).
Proof.
  repeat (split; [reflexivity|]).
  split; [|split; [reflexivity|]].
  - intros classId H. unfold classIdToUrlString.
    repeat match goal with
           | |- context [classId =? ?k] =>
               destruct (Z.eqb_spec classId k) as [->|_];
               [exfalso; apply H; simpl; tauto|]
           end.
    reflexivity.
  - vm_compute. intros H.
    repeat (destruct H as [H|H]; [discriminate H|]). exact H.
Qed.

Lemma classIdToUrlString_table_witness :
  classIdToUrlString 0 = js "unknownClassIdValue".
Proof.
  apply classIdToUrlString_table.
  simpl. intros H. repeat (destruct H as [H|H]; [discriminate H|]). exact H.
Defined.

(** C9: [capitalize] of the empty string does not fault: [charAt(0)] is the
    empty string, [charCodeAt(0)] is NaN, and the call returns the string
    made of the one code unit 0. *)
Theorem capitalize_empty :
  charAt0 (js "") = js "" /\ charCodeAt0 (js "") = None
  /\ capitalize (js "") = [0].
Proof.
  repeat split.
Qed.

(** What [capitalize] does to a string that is not empty: 32 is subtracted
    from its first code unit, modulo 2^16. *)
Lemma capitalize_cons c rest :
  capitalize (c :: rest) = (c - 32) mod 65536 :: rest.
Proof.
  unfold capitalize, JS.replace, indexOf. cbn [charAt0 charCodeAt0 minus option_map].
  cbn [indexOf_from starts_with]. rewrite Z.eqb_refl. cbn [andb].
  unfold fromCharCode. rewrite GetSubstitution_single. reflexivity.
Qed.

(** C6, as the code has it: for every string that is not empty,
    [capitalize] leaves the characters after the first unchanged; for every
    string that begins with one of the letters a to z, it returns the string
    with its first character in upper case. *)
Theorem capitalize_first c rest :
  (exists c', capitalize (c :: rest) = c' :: rest)
  /\ (97 <= c <= 122 ->
      capitalize (c :: rest) = Stated.capitalize (c :: rest)
      /\ capitalize (c :: rest) = c - 32 :: rest).
Proof.
  rewrite capitalize_cons. split; [eexists; reflexivity|].
  intros H. rewrite Z.mod_small by lia.
  split; [|reflexivity].
  unfold Stated.capitalize, Stated.toUpperCase.
  destruct (Z.leb_spec 97 c); [|lia]. destruct (Z.leb_spec c 122); [|lia].
  reflexivity.
Qed.

Lemma capitalize_first_witness :
  capitalize (js "modrinth") = js "Modrinth".
Proof.
  apply (proj2 (capitalize_first 109 (js "odrinth"))). lia.
Defined.

(** C6 fails on a string that begins with anything else: "Release" becomes
    "2elease", where the upper case is "Release" itself. *)
Lemma capitalize_uppercase_counterexample :
  js "Release" <> []
  /\ capitalize (js "Release") = js "2elease"
  /\ Stated.capitalize (js "Release") = js "Release"
  /\ capitalize (js "Release") <> Stated.capitalize (js "Release").
Proof.
  repeat split; discriminate.
Qed.

(** C5, as the code has it: [trimChangelog] returns the stripped text
    unchanged when its length does not exceed [maxLength]; otherwise, for
    [maxLength] of 3 or more, it returns the first [maxLength - 3]
    characters of the stripped text followed by "...", [maxLength]
    characters in all. *)
Theorem trimChangelog_truncates changelog maxLength :
  let text := formatHtmlChangelog changelog in
  (Z.of_nat (length text) <= maxLength -> trimChangelog changelog maxLength = text)
  /\ (maxLength < Z.of_nat (length text) -> 3 <= maxLength ->
      trimChangelog changelog maxLength
      = firstn (Z.to_nat (maxLength - 3)) text ++ js "..."
      /\ trimChangelog changelog maxLength = Stated.truncate text maxLength
      /\ Z.of_nat (length (trimChangelog changelog maxLength)) = maxLength).
Proof.
  intros text. unfold trimChangelog. fold text. split.
  - intros H. destruct (Z.ltb_spec maxLength (Z.of_nat (length text))); [lia|reflexivity].
  - intros H H3. unfold Stated.truncate.
    destruct (Z.ltb_spec maxLength (Z.of_nat (length text))); [|lia].
    rewrite slice_from_start.
    destruct (Z.ltb_spec (maxLength - 3) 0); [lia|].
    repeat split.
    rewrite length_app, length_firstn. change (length (js "...")) with 3%nat. lia.
Qed.

Lemma trimChangelog_truncates_witness :
  trimChangelog (js "abcdefghijklmnopqrst") 10 = js "abcdefg..."
  /\ length (trimChangelog (js "abcdefghijklmnopqrst") 10) = 10%nat
  /\ trimChangelog (js "abcde") 10 = js "abcde".
Proof.
  split; [|split].
  - apply (trimChangelog_truncates (js "abcdefghijklmnopqrst") 10).
    + vm_compute. reflexivity.
    + lia.
  - apply Nat2Z.inj.
    apply (trimChangelog_truncates (js "abcdefghijklmnopqrst") 10).
    + vm_compute. reflexivity.
    + lia.
  - apply (proj1 (trimChangelog_truncates (js "abcde") 10)).
    vm_compute. intros H. discriminate H.
Defined.

(** C5 fails for [maxLength] below 3: cut to 2 characters, "abcde" becomes
    "abcd...", not "..." after the first -1 characters. *)
Lemma trimChangelog_short_counterexample :
  formatHtmlChangelog (js "abcde") = js "abcde"
  /\ trimChangelog (js "abcde") 2 = js "abcd..."
  /\ Stated.truncate (formatHtmlChangelog (js "abcde")) 2 = js "..."
  /\ trimChangelog (js "abcde") 2 <> Stated.truncate (formatHtmlChangelog (js "abcde")) 2.
Proof.
  repeat split; vm_compute; discriminate.
Qed.

(** C10, as the code has it: when the stripped text is longer than
    [maxLength] and [maxLength] is below 3, the end of the slice,
    [maxLength - 3], is negative and counts from the end of the text; the
    result is strictly longer than [maxLength], and with [maxLength] 2 a
    stripped text of n characters gives n + 2 characters. *)
Theorem trimChangelog_below_three changelog maxLength :
  let text := formatHtmlChangelog changelog in
  let n := Z.of_nat (length text) in
  maxLength < n -> maxLength < 3 ->
  trimChangelog changelog maxLength
  = firstn (Z.to_nat (n + (maxLength - 3))) text ++ js "..."
  /\ Z.of_nat (length (trimChangelog changelog maxLength)) = Z.max (n + maxLength) 3
  /\ maxLength < Z.of_nat (length (trimChangelog changelog maxLength))
  /\ (maxLength = 2 -> Z.of_nat (length (trimChangelog changelog maxLength)) = n + 2).
Proof.
  intros text n Hn H3.
  assert (E : trimChangelog changelog maxLength
              = firstn (Z.to_nat (n + (maxLength - 3))) text ++ js "...").
  { unfold trimChangelog. fold text. fold n.
    destruct (Z.ltb_spec maxLength n); [|lia].
    rewrite slice_from_start.
    destruct (Z.ltb_spec (maxLength - 3) 0); [|lia]. reflexivity. }
  assert (L : Z.of_nat (length (trimChangelog changelog maxLength))
              = Z.max (n + maxLength) 3).
  { rewrite E, length_app, length_firstn. change (length (js "...")) with 3%nat.
    fold n. unfold n. lia. }
  repeat split; [exact E|exact L|lia|lia].
Qed.

Lemma trimChangelog_below_three_witness :
  trimChangelog (js "abcde") 2 = js "abcd..."
  /\ Z.of_nat (length (trimChangelog (js "abcde") 2)) = 7.
Proof.
  assert (H5 : 2 < Z.of_nat (length (formatHtmlChangelog (js "abcde"))))
    by (vm_compute; reflexivity).
  assert (H3 : 2 < 3) by lia.
  destruct (trimChangelog_below_three (js "abcde") 2 H5 H3) as (A & _ & _ & D).
  split; [exact A | exact (D eq_refl)].
Defined.

(** C10 fails in its example: with [maxLength] 2 the 5 characters of
    "abcde" become 7 characters, not 6. *)
Lemma trimChangelog_two_counterexample :
  length (formatHtmlChangelog (js "abcde")) = 5%nat
  /\ length (trimChangelog (js "abcde") 2) = 7%nat
  /\ length (trimChangelog (js "abcde") 2)
     <> (length (formatHtmlChangelog (js "abcde")) + 1)%nat.
Proof.
  repeat split; vm_compute; discriminate.
Qed.

(** *** What is left of the tags

    After the second replacement no [<] is closed on its line, and the
    third replacement keeps it so. *)

Lemma find_close_open_left s :
  Stated.find_close in_line GT s = None ->
  Stated.find_close in_line GT (Stated.remove_enclosed LT in_line GT s) = None.
Proof.
  induction s as [|c s IH]; [reflexivity|].
  cbn [Stated.find_close]. rewrite remove_enclosed_cons.
  destruct (c =? GT) eqn:Egt; [discriminate|].
  destruct (negb (is_line_terminator c)) eqn:Edot.
  - intros H. destruct (Stated.find_close in_line GT s) as [n|] eqn:Es; [discriminate|].
    assert (Hc : Stated.find_close in_line GT
                   (c :: Stated.remove_enclosed LT in_line GT s) = None).
    { cbn [Stated.find_close]. rewrite Egt, Edot, (IH eq_refl). reflexivity. }
    destruct (c =? LT); exact Hc.
  - intros _. destruct (Z.eqb_spec c LT) as [->|_]; [discriminate Edot|].
    cbn [Stated.find_close]. rewrite Egt, Edot. reflexivity.
Qed.

Lemma remove_tags_tag_free s :
  tag_free (Stated.remove_enclosed LT in_line GT s).
Proof.
  induction s as [s IH] using (induction_ltof1 _ (@length Z)); unfold ltof in IH.
  destruct s as [|c s]; [exact I|].
  rewrite remove_enclosed_cons.
  destruct (Z.eqb_spec c LT) as [->|Hc].
  - destruct (Stated.find_close in_line GT s) as [n|] eqn:Es.
    + apply IH. rewrite length_skipn. simpl. lia.
    + split.
      * intros _. apply find_close_open_left. exact Es.
      * apply IH. simpl. lia.
  - split; [contradiction|]. apply IH. simpl. lia.
Qed.

Lemma word_char_in_line d :
  is_word_char d = true -> (d =? GT) = false /\ negb (is_line_terminator d) = true.
Proof.
  unfold is_word_char, is_line_terminator, GT. intros H. split.
  - apply Z.eqb_neq. intros ->. discriminate H.
  - destruct (Z.eqb_spec d 10) as [->|_]; [discriminate H|].
    destruct (Z.eqb_spec d 13) as [->|_]; [discriminate H|].
    destruct (Z.eqb_spec d 8232) as [->|_]; [discriminate H|].
    destruct (Z.eqb_spec d 8233) as [->|_]; [discriminate H|].
    reflexivity.
Qed.

Lemma find_close_after_entity s n :
  Stated.find_close is_word_char SEMICOLON s = Some n ->
  Stated.find_close in_line GT s = None ->
  Stated.find_close in_line GT (skipn (S n) s) = None.
Proof.
  revert n. induction s as [|d s IH]; intros n; [discriminate|].
  cbn [Stated.find_close].
  destruct (Z.eqb_spec d SEMICOLON) as [->|Hd].
  - intros [= <-]. cbn [skipn]. change (SEMICOLON =? GT) with false.
    change (negb (is_line_terminator SEMICOLON)) with true. cbv iota.
    destruct (Stated.find_close in_line GT s); [discriminate|reflexivity].
  - destruct (is_word_char d) eqn:Ew; [|discriminate].
    destruct (word_char_in_line d Ew) as [-> ->].
    destruct (Stated.find_close is_word_char SEMICOLON s) as [m|]; [|discriminate].
    intros [= <-] H.
    destruct (Stated.find_close in_line GT s); [discriminate|].
    exact (IH m eq_refl eq_refl).
Qed.

Lemma find_close_entities_left s :
  Stated.find_close in_line GT s = None ->
  Stated.find_close in_line GT (Stated.remove_enclosed AMPERSAND is_word_char SEMICOLON s)
  = None.
Proof.
  induction s as [s IH] using (induction_ltof1 _ (@length Z)); unfold ltof in IH.
  destruct s as [|c s]; [reflexivity|].
  intros H. rewrite remove_enclosed_cons.
  assert (Hkeep : Stated.find_close in_line GT
                    (c :: Stated.remove_enclosed AMPERSAND is_word_char SEMICOLON s) = None).
  { cbn [Stated.find_close] in *.
    destruct (c =? GT); [discriminate|].
    destruct (negb (is_line_terminator c)); [|reflexivity].
    destruct (Stated.find_close in_line GT s) eqn:Es; [discriminate|].
    rewrite IH; [reflexivity|simpl; lia|exact Es]. }
  destruct (Z.eqb_spec c AMPERSAND) as [->|Hc]; [|exact Hkeep].
  destruct (Stated.find_close is_word_char SEMICOLON s) as [n|] eqn:En;
    [|exact Hkeep].
  cbn [Stated.find_close] in H. change (AMPERSAND =? GT) with false in H.
  change (negb (is_line_terminator AMPERSAND)) with true in H. cbv iota in H.
  destruct (Stated.find_close in_line GT s) eqn:Es; [discriminate|].
  apply IH.
  - rewrite length_skipn. simpl. lia.
  - apply find_close_after_entity; assumption.
Qed.

Lemma tag_free_skipn n s : tag_free s -> tag_free (skipn n s).
Proof.
  revert s. induction n as [|n IH]; intros s H; [exact H|].
  destruct s as [|c s]; [exact I|]. apply IH. exact (proj2 H).
Qed.

Lemma remove_entities_tag_free s :
  tag_free s ->
  tag_free (Stated.remove_enclosed AMPERSAND is_word_char SEMICOLON s).
Proof.
  induction s as [s IH] using (induction_ltof1 _ (@length Z)); unfold ltof in IH.
  destruct s as [|c s]; [trivial|].
  intros [Hc Hs]. rewrite remove_enclosed_cons.
  assert (Hkeep : tag_free (c :: Stated.remove_enclosed AMPERSAND is_word_char SEMICOLON s)).
  { split.
    - intros E. apply find_close_entities_left, Hc, E.
    - apply IH; [simpl; lia|exact Hs]. }
  destruct (c =? AMPERSAND); [|exact Hkeep].
  destruct (Stated.find_close is_word_char SEMICOLON s) as [n|]; [|exact Hkeep].
  apply IH.
  - rewrite length_skipn. simpl. lia.
  - apply (tag_free_skipn (S n)). exact Hs.
Qed.

Lemma find_close_none_terminator inner post :
  Stated.find_close in_line GT (inner ++ GT :: post) = None ->
  Exists (fun c => is_line_terminator c = true) inner.
Proof.
  induction inner as [|d inner IH]; cbn [app Stated.find_close].
  - rewrite Z.eqb_refl. discriminate.
  - destruct (d =? GT); [discriminate|].
    destruct (is_line_terminator d) eqn:Ed; cbn [negb].
    + intros _. left. exact Ed.
    + intros H. right. apply IH.
      destruct (Stated.find_close in_line GT (inner ++ GT :: post)); [discriminate|reflexivity].
Qed.

Lemma tag_free_spec s pre inner post :
  tag_free s ->
  s = pre ++ LT :: inner ++ GT :: post ->
  Exists (fun c => is_line_terminator c = true) inner.
Proof.
  intros H ->. induction pre as [|c pre IH].
  - destruct H as [H _]. apply (find_close_none_terminator inner post), H. reflexivity.
  - apply IH. exact (proj2 H).
Qed.

(** No tag-like stretch within a line is left in a formatted changelog. *)
Lemma formatHtmlChangelog_tag_free changelog :
  tag_free (formatHtmlChangelog changelog).
Proof.
  rewrite formatHtmlChangelog_passes. unfold Stated.stripHtml_in_line.
  apply remove_entities_tag_free, remove_tags_tag_free.
Qed.

(** What the three replacements do: [formatHtmlChangelog] replaces every
    [<br>] by a newline, then removes every stretch from a [<] to the next
    [>] that no line terminator lies between, then removes every [&], word
    characters, [;]; whatever is left between a [<] and a later [>] of the
    result holds a line terminator; on the text of the specification the
    result is the one given. *)
Lemma formatHtmlChangelog_in_line :
  (forall changelog, formatHtmlChangelog changelog = Stated.stripHtml_in_line changelog)
  /\ (forall changelog pre inner post,
       formatHtmlChangelog changelog = pre ++ LT :: inner ++ GT :: post ->
       Exists (fun c => is_line_terminator c = true) inner)
  /\ formatHtmlChangelog (js "Fixed bug<br>Added feature &amp; more <b>bold</b>")
     = js "Fixed bug" ++ [LF] ++ js "Added feature  more bold".
Proof.
  split; [|split].
  - exact formatHtmlChangelog_passes.
  - intros changelog pre inner post H.
    exact (tag_free_spec _ pre inner post (formatHtmlChangelog_tag_free changelog) H).
  - vm_compute. reflexivity.
Qed.

(** C7: a tag that runs over the end of a line is not removed. On the text
    [<a], line feed, [href=x>] the function returns its input, tag and all,
    where the removal of every [<...>], which the specification states and
    the comment of line 223 (Remove HTML tags) announces, leaves the empty
    text: the dot of [/<.*?>/g] does not match a line terminator. *)
Theorem formatHtmlChangelog_multiline_tag :
  let changelog := js "<a" ++ [LF] ++ js "href=x>" in
  formatHtmlChangelog changelog = changelog
  /\ Stated.stripHtml changelog = []
  /\ formatHtmlChangelog changelog <> Stated.stripHtml changelog.
Proof.
  repeat split; vm_compute; discriminate.
Qed.

(** ** Computations *)

Lemma strict_eq_refl s : strict_eq s s = true.
Proof.
  unfold strict_eq. destruct (jsstring_eq_dec s s); congruence.
Qed.

Lemma at_index_last {A} (l : list A) (x : A) :
  at_index (l ++ [x]) (Z.of_nat (length (l ++ [x])) - 1) = Some x.
Proof.
  unfold at_index. rewrite length_app. cbn [length].
  destruct (Z.ltb_spec (Z.of_nat (length l + 1) - 1) 0); [lia|].
  replace (Z.to_nat (Z.of_nat (length l + 1) - 1)) with (length l) by lia.
  rewrite nth_error_app2 by lia. rewrite Nat.sub_diag. reflexivity.
Qed.

Lemma bind_Value {A B} (a : A) t (k : A -> M B) :
  bind (Value a, t) k = (fst (k a), t ++ snd (k a)).
Proof.
  cbn [bind]. destruct (k a); reflexivity.
Qed.

Lemma for_of_app {A} (body : A -> M unit) l1 l2 :
  fst (for_of l1 body) = Value tt ->
  for_of (l1 ++ l2) body
  = (fst (for_of l2 body), snd (for_of l1 body) ++ snd (for_of l2 body)).
Proof.
  induction l1 as [|x l1 IH]; cbn [for_of app].
  - intros _. destruct (for_of l2 body); reflexivity.
  - destruct (body x) as [[[]| |e] t]; cbn [bind]; try discriminate.
    destruct (for_of l1 body) as [o1 t1]. cbn [fst snd] in *.
    intros H. rewrite (IH H). rewrite app_assoc. reflexivity.
Qed.

(** ** [sendUpdateEmbed] *)

Section Properties.

Variable env : Env.

Ltac use_platform H :=
  unfold getVersionData; rewrite H;
  first [ rewrite strict_eq_refl
        | change (strict_eq (js "modrinth") (js "curseforge")) with false;
          rewrite strict_eq_refl ];
  cbv iota.

Lemma capitalize_releaseType releaseType :
  capitalize (releaseTypeToString releaseType)
  = if releaseType =? 1 then js "Release"
    else if releaseType =? 2 then js "Beta"
    else if releaseType =? 3 then js "Alpha"
    else js "UnknownReleaseType".
Proof.
  unfold releaseTypeToString.
  destruct (releaseType =? 1); [reflexivity|].
  destruct (releaseType =? 2); [reflexivity|].
  destruct (releaseType =? 3); reflexivity.
Qed.

(** The version data of a CurseForge project. *)
Lemma getVersionData_curseforge p dbProject files latestFile response firstIndex indexes :
  platform dbProject = js "curseforge" ->
  latestFiles p = files ++ [latestFile] ->
  getModFileChangelog env (cf_id p) (file_id latestFile) = Some response ->
  statusCode response = 200 ->
  latestFilesIndexes p = firstIndex :: indexes ->
  let versionData :=
    {| changelog := data (getJSONResponse_changelog env (body response));
       date := fileDate latestFile;
       iconURL := Some (logo_url (logo p));
       name := displayName latestFile;
       number := fileName latestFile;
       type := if releaseType latestFile =? 1 then js "Release"
               else if releaseType latestFile =? 2 then js "Beta"
               else if releaseType latestFile =? 3 then js "Alpha"
               else js "UnknownReleaseType";
       url := js "https://www.curseforge.com/minecraft/"
                ++ classIdToUrlString (classId p) ++ js "/" ++ cf_slug p
                ++ js "/files/" ++ ToString (Some (fileId firstIndex)) |} in
  getVersionData env (CurseForge p) dbProject
  = (Value versionData,
     [Fetch_getModFileChangelog (cf_id p) (file_id latestFile); Debug versionData]).
Proof.
  intros Hp Hfiles Hresp Hstatus Hidx versionData.
  use_platform Hp.
  rewrite Hfiles, at_index_last. cbn [deref ret bind call].
  rewrite Hresp, Hstatus. cbn [Z.eqb Pos.eqb negb].
  rewrite Hidx. change (at_index (firstIndex :: indexes) 0) with (Some firstIndex).
  cbn [deref ret bind debug emit app fst snd].
  rewrite capitalize_releaseType. reflexivity.
Qed.

(** The version data of a project listed on Modrinth. *)
Lemma getVersionData_modrinth requestedProject dbProject response :
  platform dbProject = js "modrinth" ->
  listProjectVersions env (project_id requestedProject) = Some response ->
  statusCode response = 200 ->
  getJSONResponse_versions env (body response) <> [] ->
  exists versionData,
    getVersionData env requestedProject dbProject
    = (Value versionData,
       [Fetch_listProjectVersions (project_id requestedProject); Debug versionData]).
Proof.
  intros Hp Hresp Hstatus Hversions.
  use_platform Hp.
  cbn [bind call]. rewrite Hresp, Hstatus. cbn [Z.eqb Pos.eqb negb].
  destruct (getJSONResponse_versions env (body response)) as [|first versions];
    [congruence|].
  change (at_index (first :: versions) 0) with (Some first).
  cbn [deref ret bind debug emit app fst snd].
  eexists. reflexivity.
Qed.

(** A successful answer that carries a version gives the version data,
    after one request and nothing else. *)
Lemma getVersionData_success requestedProject dbProject request response :
  upstream_reply env requestedProject dbProject request (Some response) ->
  statusCode response = 200 ->
  carries_version env requestedProject dbProject response ->
  exists versionData,
    getVersionData env requestedProject dbProject
    = (Value versionData, [request; Debug versionData]).
Proof.
  intros Hreply Hstatus Hcarries. unfold carries_version in Hcarries.
  inversion Hreply as [p db files latestFile Hp Hfiles E1 E2 E3 E4
                      | rp db Hp E1 E2 E3 E4]; subst.
  - rewrite Hp, strict_eq_refl in Hcarries.
    destruct (latestFilesIndexes p) as [|firstIndex indexes] eqn:Hidx; [congruence|].
    eexists.
    exact (getVersionData_curseforge p dbProject files latestFile response
             firstIndex indexes Hp Hfiles E4 Hstatus Hidx).
  - rewrite Hp in Hcarries.
    change (strict_eq (js "modrinth") (js "curseforge")) with false in Hcarries.
    match goal with
    | H : listProjectVersions _ _ = Some _ |- _ =>
        exact (getVersionData_modrinth _ _ _ Hp H Hstatus Hcarries)
    end.
Qed.

(** A request that times out, or is answered with another status than 200,
    ends the function with one warning. *)
Lemma getVersionData_failure requestedProject dbProject request reply :
  upstream_reply env requestedProject dbProject request reply ->
  reply = None \/ (exists response, reply = Some response /\ statusCode response <> 200) ->
  exists msg,
    getVersionData env requestedProject dbProject = (Return, [request; Warn msg]).
Proof.
  intros Hreply Hfail.
  inversion Hreply as [p db files latestFile Hp Hfiles E1 E2 E3 E4
                      | rp db Hp E1 E2 E3 E4]; subst.
  - use_platform Hp.
    rewrite Hfiles, at_index_last. cbn [deref ret bind call].
    destruct Hfail as [-> | (response & -> & Hstatus)].
    + eexists. reflexivity.
    + apply Z.eqb_neq in Hstatus. rewrite Hstatus. eexists. reflexivity.
  - use_platform Hp. cbn [bind call].
    destruct Hfail as [-> | (response & -> & Hstatus)].
    + eexists. reflexivity.
    + apply Z.eqb_neq in Hstatus. rewrite Hstatus. eexists. reflexivity.
Qed.

(** Once the version data is there, the tracked rows are looked up and the
    loop runs over them. *)
Lemma sendUpdateEmbed_resolved requestedProject dbProject client versionData pre :
  getVersionData env requestedProject dbProject = (Value versionData, pre) ->
  sendUpdateEmbed env requestedProject dbProject client
  = (fst (deliver env dbProject client versionData
            (TrackedProjects_findAll env (db_id dbProject))),
     pre ++ FindAll (db_id dbProject)
         :: snd (deliver env dbProject client versionData
                   (TrackedProjects_findAll env (db_id dbProject)))).
Proof.
  intros H. unfold sendUpdateEmbed, deliver. rewrite H, bind_Value.
  cbn [call bind]. destruct (for_of _ _). reflexivity.
Qed.

Lemma sendUpdateEmbed_thrown requestedProject dbProject client e pre :
  getVersionData env requestedProject dbProject = (Throw e, pre) ->
  sendUpdateEmbed env requestedProject dbProject client = (Throw e, pre).
Proof.
  intros H. unfold sendUpdateEmbed. rewrite H. reflexivity.
Qed.

(** A successful answer without a version in it: reading the first entry
    throws, after the request and before anything else. *)
Lemma sendUpdateEmbed_malformed_payload requestedProject dbProject client request response :
  upstream_reply env requestedProject dbProject request (Some response) ->
  statusCode response = 200 ->
  ~ carries_version env requestedProject dbProject response ->
  sendUpdateEmbed env requestedProject dbProject client = (Throw TypeError, [request]).
Proof.
  intros Hreply Hstatus Hcarries. apply sendUpdateEmbed_thrown.
  unfold carries_version in Hcarries.
  inversion Hreply as [p db files latestFile Hp Hfiles E1 E2 E3 E4
                      | rp db Hp E1 E2 E3 E4]; subst.
  - rewrite Hp, strict_eq_refl in Hcarries.
    use_platform Hp.
    rewrite Hfiles, at_index_last. cbn [deref ret bind call].
    rewrite E4, Hstatus. cbn [Z.eqb Pos.eqb negb].
    destruct (latestFilesIndexes p); [reflexivity|].
    exfalso. apply Hcarries. discriminate.
  - rewrite Hp in Hcarries.
    change (strict_eq (js "modrinth") (js "curseforge")) with false in Hcarries.
    use_platform Hp. cbn [bind call].
    match goal with
    | H : listProjectVersions _ _ = Some _ |- _ => rewrite H
    end.
    rewrite Hstatus. cbn [Z.eqb Pos.eqb negb].
    destruct (getJSONResponse_versions env (body response)); [reflexivity|].
    exfalso. apply Hcarries. discriminate.
Qed.

Lemma sendUpdateEmbed_returned requestedProject dbProject client pre :
  getVersionData env requestedProject dbProject = (Return, pre) ->
  sendUpdateEmbed env requestedProject dbProject client = (Return, pre).
Proof.
  intros H. unfold sendUpdateEmbed. rewrite H. reflexivity.
Qed.

Lemma notifyTrackedProject_not_in_cache dbProject client versionData trackedProject :
  not_in_cache client trackedProject ->
  exists msg,
    notifyTrackedProject env dbProject client versionData trackedProject
    = (Value tt, [Warn msg]).
Proof.
  unfold not_in_cache, notifyTrackedProject. intros H.
  destruct (guilds_cache_get client (guildId trackedProject)) as [guild|].
  - rewrite H. eexists. reflexivity.
  - eexists. reflexivity.
Qed.

Lemma builds_ret {A} (a : A) : builds_to (ret a) a.
Proof.
  left. reflexivity.
Qed.

Lemma builds_validated {A} (accepted : bool) (a : A) : builds_to (validated accepted a) a.
Proof.
  destruct accepted; [left|right]; reflexivity.
Qed.

Lemma builds_bind {A B} (m : M A) (k : A -> M B) a b :
  builds_to m a -> builds_to (k a) b -> builds_to (bind m k) b.
Proof.
  intros [->| ->] Hk; [|right; reflexivity].
  destruct Hk as [Hk|Hk]; cbn [bind]; rewrite Hk; [left|right]; reflexivity.
Qed.

Ltac setters :=
  unfold EmbedBuilder, setAuthor, setColor, setDescription, setFields, setFooter,
    setThumbnail, setTimestamp, setTitle, setURL, ButtonBuilder, Button_setLabel,
    Button_setStyle, Button_setURL, ActionRowBuilder, addComponents.

Ltac record :=
  cbv beta;
  cbn [embed_author embed_color embed_description embed_fields embed_footer
       embed_thumbnail embed_timestamp embed_title embed_url
       button_label button_style button_url app].

Ltac builds :=
  repeat (record;
          match goal with
          | |- builds_to (bind _ _) _ => eapply builds_bind
          | |- builds_to (validated _ _) _ => apply builds_validated
          | |- builds_to (ret _) _ => apply builds_ret
          end).

(** The compact message is its content, unless a builder throws. *)
Lemma compactMessage_result dbProject versionData :
  builds_to (compactMessage env dbProject versionData)
            (compactContent env dbProject versionData).
Proof.
  unfold compactMessage, compactContent. setters. builds.
Qed.

(** The full message is its content, unless a builder throws. *)
Lemma fullMessage_result dbProject versionData guildSettings :
  builds_to (fullMessage env dbProject versionData guildSettings)
            (fullContent env dbProject versionData guildSettings).
Proof.
  unfold fullMessage, fullContent. setters. builds.
Qed.

Lemma styledMessage_result dbProject versionData guildSettings :
  exists m, builds_to (styledMessage env dbProject versionData guildSettings) m.
Proof.
  unfold styledMessage.
  destruct (strict_eq (notificationStyle guildSettings) (js "compact")).
  - eexists. apply compactMessage_result.
  - eexists. apply fullMessage_result.
Qed.

Lemma styledMessage_built dbProject versionData guildSettings m :
  styledMessage env dbProject versionData guildSettings = (Value m, []) ->
  built_from env dbProject versionData m.
Proof.
  unfold styledMessage, built_from.
  destruct (strict_eq (notificationStyle guildSettings) (js "compact")); intros H.
  - left. exact H.
  - right. exists guildSettings. exact H.
Qed.

(** The message of a style, when it is built, is the content of the style. *)
Lemma styledMessage_content dbProject versionData guildSettings m :
  styledMessage env dbProject versionData guildSettings = (Value m, []) ->
  m = if strict_eq (notificationStyle guildSettings) (js "compact")
      then compactContent env dbProject versionData
      else fullContent env dbProject versionData guildSettings.
Proof.
  unfold styledMessage.
  destruct (strict_eq (notificationStyle guildSettings) (js "compact")); intros H.
  - destruct (compactMessage_result dbProject versionData) as [H'|H'];
      rewrite H' in H; [injection H as <-; reflexivity|discriminate H].
  - destruct (fullMessage_result dbProject versionData guildSettings) as [H'|H'];
      rewrite H' in H; [injection H as <-; reflexivity|discriminate H].
Qed.

(** A builder call that is not accepted throws, and so does the chain it is
    in, whatever comes after it. *)
Lemma throws_bind {A B} (m : M A) (k : A -> M B) :
  m = (Throw ValidationError, []) -> bind m k = (Throw ValidationError, []).
Proof.
  intros ->. reflexivity.
Qed.

Lemma builds_throws {A B} (m : M A) (k : A -> M B) a :
  builds_to m a -> k a = (Throw ValidationError, []) ->
  bind m k = (Throw ValidationError, []).
Proof.
  intros [->| ->] Hk; [|reflexivity]. cbn [bind]. rewrite Hk. reflexivity.
Qed.

(** The full message is not built when [setThumbnail] does not accept the
    icon of the version. *)
Lemma fullMessage_thumbnail dbProject versionData guildSettings :
  builder_accepts env (call_setThumbnail (iconURL versionData)) = false ->
  fullMessage env dbProject versionData guildSettings = (Throw ValidationError, []).
Proof.
  intros H. unfold fullMessage.
  do 3 apply throws_bind.
  eapply builds_throws.
  - unfold EmbedBuilder, setAuthor, setColor, setDescription, setFields. builds.
  - unfold setThumbnail. rewrite H. reflexivity.
Qed.

(** What the body of the loop does for one row: a warning when the row has
    no destination; else the settings lookup, and then an exception before
    anything is sent, or one message sent to the row's channel. *)
Lemma notifyTrackedProject_cases dbProject client versionData trackedProject :
  (destination client trackedProject = None
   /\ exists msg,
       notifyTrackedProject env dbProject client versionData trackedProject
       = (Value tt, [Warn msg]))
  \/ (exists channel e,
         destination client trackedProject = Some channel
         /\ (Guilds_findByPk env (guildId trackedProject) = None /\ e = TypeError
             \/ exists guildSettings,
                  Guilds_findByPk env (guildId trackedProject) = Some guildSettings
                  /\ styledMessage env dbProject versionData guildSettings
                     = (Throw ValidationError, [])
                  /\ e = ValidationError)
         /\ notifyTrackedProject env dbProject client versionData trackedProject
            = (Throw e, [FindByPk (guildId trackedProject)]))
  \/ (exists channel guildSettings m,
         destination client trackedProject = Some channel
         /\ Guilds_findByPk env (guildId trackedProject) = Some guildSettings
         /\ styledMessage env dbProject versionData guildSettings = (Value m, [])
         /\ notifyTrackedProject env dbProject client versionData trackedProject
            = (if accepts channel m then Value tt else Throw SendRejected,
               [FindByPk (guildId trackedProject); Send (channel_id channel) m])).
Proof.
  unfold destination, notifyTrackedProject.
  destruct (guilds_cache_get client (guildId trackedProject)) as [guild|];
    [|left; split; [reflexivity|eexists; reflexivity]].
  destruct (channels_cache_get guild (channelId trackedProject)) as [channel|];
    [|left; split; [reflexivity|eexists; reflexivity]].
  right. cbn [call bind].
  destruct (Guilds_findByPk env (guildId trackedProject)) as [guildSettings|];
    [|left; exists channel, TypeError; split; [reflexivity|];
      split; [left; split; reflexivity|reflexivity]].
  cbn [deref ret bind].
  destruct (styledMessage_result dbProject versionData guildSettings) as [m [Hm|Hm]].
  - right. exists channel, guildSettings, m.
    split; [reflexivity|]. split; [reflexivity|]. split; [exact Hm|].
    unfold styledMessage in Hm.
    destruct (strict_eq (notificationStyle guildSettings) (js "compact"));
      rewrite Hm; cbn [bind send app]; destruct (accepts channel m); reflexivity.
  - left. exists channel, ValidationError. split; [reflexivity|].
    split; [right; exists guildSettings; split; [reflexivity|]; split;
            [exact Hm|reflexivity]|].
    unfold styledMessage in Hm.
    destruct (strict_eq (notificationStyle guildSettings) (js "compact"));
      rewrite Hm; reflexivity.
Qed.

Lemma notifyTrackedProject_events dbProject client versionData trackedProject :
  Forall (delivery_event env dbProject versionData)
         (snd (notifyTrackedProject env dbProject client versionData trackedProject)).
Proof.
  destruct (notifyTrackedProject_cases dbProject client versionData trackedProject)
    as [(_ & msg & ->) | [(channel & e & _ & _ & ->)
                         | (channel & gs & m & _ & _ & Hm & ->)]]; cbn [snd].
  - repeat constructor.
  - repeat constructor.
  - apply Forall_cons; [exact I|]. apply Forall_cons; [|apply Forall_nil].
    exact (styledMessage_built _ _ _ _ Hm).
Qed.

Lemma snd_bind {A B} (m : M A) (k : A -> M B) (P : event -> Prop) :
  Forall P (snd m) -> (forall a, Forall P (snd (k a))) -> Forall P (snd (bind m k)).
Proof.
  intros Hm Hk. destruct m as [[a| |e] t]; cbn [bind]; [|exact Hm|exact Hm].
  specialize (Hk a). destruct (k a). apply Forall_app. split; assumption.
Qed.

Lemma deliver_events dbProject client versionData trackedProjects :
  Forall (delivery_event env dbProject versionData)
         (snd (deliver env dbProject client versionData trackedProjects)).
Proof.
  unfold deliver. induction trackedProjects as [|row rows IH]; cbn [for_of].
  - constructor.
  - apply snd_bind; [apply notifyTrackedProject_events|intros _; exact IH].
Qed.

Lemma delivery_events_counts dbProject versionData t :
  Forall (delivery_event env dbProject versionData) t ->
  count is_fetch t = 0%nat /\ count is_debug t = 0%nat.
Proof.
  unfold count. induction 1 as [|e t He _ [IH1 IH2]]; [split; reflexivity|].
  destruct e; cbn [filter is_fetch is_debug]; try contradiction; split; assumption.
Qed.

End Properties.

Section Claims.

Variable env : Env.

(** C1: with a supported platform and a successful answer from upstream,
    [sendUpdateEmbed] asks upstream exactly once and computes one version
    data, both before the tracked rows are looked up; what follows the
    lookup are warnings, settings lookups and sent messages only, and every
    message sent, compact or full, is built from that one version data. *)
Theorem sendUpdateEmbed_one_version requestedProject dbProject client request response :
  upstream_reply env requestedProject dbProject request (Some response) ->
  statusCode response = 200 ->
  carries_version env requestedProject dbProject response ->
  exists versionData o loop,
    sendUpdateEmbed env requestedProject dbProject client
    = (o, request :: Debug versionData :: FindAll (db_id dbProject) :: loop)
    /\ is_fetch request = true
    /\ Forall (delivery_event env dbProject versionData) loop
    /\ (forall channelId m, In (Send channelId m) loop ->
        built_from env dbProject versionData m)
    /\ count is_fetch (snd (sendUpdateEmbed env requestedProject dbProject client)) = 1%nat
    /\ count is_debug (snd (sendUpdateEmbed env requestedProject dbProject client)) = 1%nat.
Proof.
  intros Hreply Hstatus Hcarries.
  destruct (getVersionData_success env _ _ _ _ Hreply Hstatus Hcarries)
    as [versionData Hversion].
  pose proof (sendUpdateEmbed_resolved env _ _ client _ _ Hversion) as Hsend.
  pose proof (deliver_events env dbProject client versionData
                (TrackedProjects_findAll env (db_id dbProject))) as Hloop.
  destruct (delivery_events_counts env _ _ _ Hloop) as [Hfetch Hdebug].
  assert (Hrequest : is_fetch request = true) by (inversion Hreply; reflexivity).
  eexists versionData, _, _. split; [exact Hsend|].
  split; [exact Hrequest|]. split; [exact Hloop|]. split; [|split].
  - intros channelId m Hin. rewrite Forall_forall in Hloop.
    exact (Hloop _ Hin).
  - rewrite Hsend. unfold count in *. cbn [snd app filter is_fetch].
    rewrite Hrequest. cbn [length]. rewrite Hfetch. reflexivity.
  - rewrite Hsend. unfold count in *. cbn [snd app filter is_debug].
    assert (Hd : is_debug request = false) by (inversion Hreply; reflexivity).
    rewrite Hd. cbn [length]. rewrite Hdebug. reflexivity.
Qed.

(** C2: on both platforms, when the request upstream times out or is
    answered with another status than 200, [sendUpdateEmbed] logs one
    warning and returns: the tracked rows are not looked up, no message is
    sent and nothing is thrown, whatever rows are tracked. *)
Theorem sendUpdateEmbed_upstream_failure requestedProject dbProject client request reply :
  upstream_reply env requestedProject dbProject request reply ->
  reply = None \/ (exists response, reply = Some response /\ statusCode response <> 200) ->
  exists msg,
    sendUpdateEmbed env requestedProject dbProject client = (Return, [request; Warn msg])
    /\ count is_warn (snd (sendUpdateEmbed env requestedProject dbProject client)) = 1%nat
    /\ count is_send (snd (sendUpdateEmbed env requestedProject dbProject client)) = 0%nat.
Proof.
  intros Hreply Hfail.
  destruct (getVersionData_failure env _ _ _ _ Hreply Hfail) as [msg Hversion].
  apply (sendUpdateEmbed_returned env _ _ client) in Hversion.
  exists msg. rewrite Hversion. split; [reflexivity|].
  inversion Hreply; split; reflexivity.
Qed.

(** C3: for a CurseForge project whose changelog request succeeds, the
    version data has the changelog of the answer's [data]; date, name,
    number and type of the last of [latestFiles], the type being Release,
    Beta, Alpha for 1, 2, 3 and UnknownReleaseType for any other code; the
    logo's URL as icon; and the URL made of the segment of the class, the
    slug and the [fileId] of the first of [latestFilesIndexes]. *)
Theorem sendUpdateEmbed_curseforge_version p dbProject client files latestFile response
    firstIndex indexes :
  platform dbProject = js "curseforge" ->
  latestFiles p = files ++ [latestFile] ->
  getModFileChangelog env (cf_id p) (file_id latestFile) = Some response ->
  statusCode response = 200 ->
  latestFilesIndexes p = firstIndex :: indexes ->
  let versionData :=
    {| changelog := data (getJSONResponse_changelog env (body response));
       date := fileDate latestFile;
       iconURL := Some (logo_url (logo p));
       name := displayName latestFile;
       number := fileName latestFile;
       type := if releaseType latestFile =? 1 then js "Release"
               else if releaseType latestFile =? 2 then js "Beta"
               else if releaseType latestFile =? 3 then js "Alpha"
               else js "UnknownReleaseType";
       url := js "https://www.curseforge.com/minecraft/"
                ++ classIdToUrlString (classId p) ++ js "/" ++ cf_slug p
                ++ js "/files/" ++ ToString (Some (fileId firstIndex)) |} in
  exists o loop,
    sendUpdateEmbed env (CurseForge p) dbProject client
    = (o, Fetch_getModFileChangelog (cf_id p) (file_id latestFile)
          :: Debug versionData :: FindAll (db_id dbProject) :: loop)
    /\ Forall (delivery_event env dbProject versionData) loop.
Proof.
  intros Hp Hfiles Hresp Hstatus Hidx versionData.
  pose proof (getVersionData_curseforge env p dbProject files latestFile response
                firstIndex indexes Hp Hfiles Hresp Hstatus Hidx) as Hversion.
  cbv zeta in Hversion. fold versionData in Hversion.
  eexists _, _. split.
  - exact (sendUpdateEmbed_resolved env _ _ client _ _ Hversion).
  - apply deliver_events.
Qed.

(** C4: when the loop reaches a tracked row whose guild or channel is not
    in the client's cache, it logs one warning for the row, sends nothing
    for it, and goes on: the rows after it are processed as they are
    without it. *)
Theorem sendUpdateEmbed_skips_missing requestedProject dbProject client versionData pre
    before trackedProject after :
  getVersionData env requestedProject dbProject = (Value versionData, pre) ->
  TrackedProjects_findAll env (db_id dbProject) = before ++ trackedProject :: after ->
  not_in_cache client trackedProject ->
  fst (deliver env dbProject client versionData before) = Value tt ->
  exists msg,
    notifyTrackedProject env dbProject client versionData trackedProject
    = (Value tt, [Warn msg])
    /\ sendUpdateEmbed env requestedProject dbProject client
       = (fst (deliver env dbProject client versionData after),
          pre ++ FindAll (db_id dbProject)
              :: snd (deliver env dbProject client versionData before)
              ++ Warn msg
              :: snd (deliver env dbProject client versionData after)).
Proof.
  intros Hversion Hrows Hmissing Hbefore.
  destruct (notifyTrackedProject_not_in_cache env dbProject client versionData
              trackedProject Hmissing) as [msg Hrow].
  exists msg. split; [exact Hrow|].
  rewrite (sendUpdateEmbed_resolved env _ _ client _ _ Hversion), Hrows.
  unfold deliver in *. rewrite (for_of_app _ _ _ Hbefore).
  cbn [for_of fst snd]. rewrite Hrow. cbn [bind].
  destruct (for_of after _). reflexivity.
Qed.

End Claims.

(** ** The sample invocation *)

Lemma sendUpdateEmbed_one_version_witness :
  exists versionData o loop,
    sendUpdateEmbed Sample.env (CurseForge (Sample.project 238222)) Sample.dbProject
      Sample.client
    = (o, Fetch_getModFileChangelog 238222 4713 :: Debug versionData
          :: FindAll (js "238222") :: loop)
    /\ is_fetch (Fetch_getModFileChangelog 238222 4713) = true
    /\ Forall (delivery_event Sample.env Sample.dbProject versionData) loop
    /\ (forall channelId m, In (Send channelId m) loop ->
        built_from Sample.env Sample.dbProject versionData m)
    /\ count is_fetch
         (snd (sendUpdateEmbed Sample.env (CurseForge (Sample.project 238222))
                 Sample.dbProject Sample.client)) = 1%nat
    /\ count is_debug
         (snd (sendUpdateEmbed Sample.env (CurseForge (Sample.project 238222))
                 Sample.dbProject Sample.client)) = 1%nat.
Proof.
  apply (sendUpdateEmbed_one_version Sample.env (CurseForge (Sample.project 238222))
           Sample.dbProject Sample.client
           (Fetch_getModFileChangelog 238222 4713)
           {| statusCode := 200; body := js "{}" |}).
  - exact (reply_curseforge Sample.env (Sample.project 238222) Sample.dbProject
             [Sample.older] Sample.newest eq_refl eq_refl).
  - reflexivity.
  - vm_compute. intros H. discriminate H.
Defined.

Lemma sendUpdateEmbed_upstream_failure_witness :
  exists msg,
    sendUpdateEmbed Sample.env (CurseForge (Sample.project 404)) Sample.dbProject
      Sample.client
    = (Return, [Fetch_getModFileChangelog 404 4713; Warn msg])
    /\ count is_warn
         (snd (sendUpdateEmbed Sample.env (CurseForge (Sample.project 404))
                 Sample.dbProject Sample.client)) = 1%nat
    /\ count is_send
         (snd (sendUpdateEmbed Sample.env (CurseForge (Sample.project 404))
                 Sample.dbProject Sample.client)) = 0%nat.
Proof.
  apply (sendUpdateEmbed_upstream_failure Sample.env (CurseForge (Sample.project 404))
           Sample.dbProject Sample.client
           (Fetch_getModFileChangelog 404 4713)
           (Some {| statusCode := 404; body := [] |})).
  - exact (reply_curseforge Sample.env (Sample.project 404) Sample.dbProject
             [Sample.older] Sample.newest eq_refl eq_refl).
  - right. exists {| statusCode := 404; body := [] |}.
    split; [reflexivity|]. simpl. lia.
Defined.

Lemma sendUpdateEmbed_curseforge_version_witness :
  exists o loop,
    sendUpdateEmbed Sample.env (CurseForge (Sample.project 238222)) Sample.dbProject
      Sample.client
    = (o, Fetch_getModFileChangelog 238222 4713 :: Debug Sample.versionData
          :: FindAll (js "238222") :: loop)
    /\ Forall (delivery_event Sample.env Sample.dbProject Sample.versionData) loop.
Proof.
  exact (sendUpdateEmbed_curseforge_version Sample.env (Sample.project 238222)
           Sample.dbProject Sample.client [Sample.older] Sample.newest
           {| statusCode := 200; body := js "{}" |}
           {| fileId := 4712 |} [ {| fileId := 4600 |} ]
           eq_refl eq_refl eq_refl eq_refl eq_refl).
Defined.

Lemma sendUpdateEmbed_skips_missing_witness :
  exists msg,
    notifyTrackedProject Sample.env Sample.dbProject Sample.client Sample.versionData
      {| guildId := js "g1"; channelId := js "c9" |}
    = (Value tt, [Warn msg])
    /\ sendUpdateEmbed Sample.env (CurseForge (Sample.project 238222)) Sample.dbProject
         Sample.client
       = (Value tt,
          [ Fetch_getModFileChangelog 238222 4713;
            Debug Sample.versionData;
            FindAll (js "238222");
            Warn (js "Could not find guild with ID g0 in cache. Update notification not sent.");
            Warn msg;
            FindByPk (js "g1");
            Send (js "c1") (compactContent Sample.env Sample.dbProject Sample.versionData);
            FindByPk (js "g2");
            Send (js "c2")
              (fullContent Sample.env Sample.dbProject Sample.versionData
                 {| notificationStyle := js "normal"; changelogMaxLength := 10 |}) ]).
Proof.
  apply (sendUpdateEmbed_skips_missing Sample.env (CurseForge (Sample.project 238222))
           Sample.dbProject Sample.client Sample.versionData
           [Fetch_getModFileChangelog 238222 4713; Debug Sample.versionData]
           [ {| guildId := js "g0"; channelId := js "c0" |} ]
           {| guildId := js "g1"; channelId := js "c9" |}
           [ {| guildId := js "g1"; channelId := js "c1" |};
             {| guildId := js "g2"; channelId := js "c2" |} ]).
  - vm_compute. reflexivity.
  - reflexivity.
  - vm_compute. reflexivity.
  - vm_compute. reflexivity.
Defined.

(** The full message of the sample: the changelog is stripped and cut to the
    10 characters of the guild's settings. *)
Example sample_full_description :
  exists m,
    fullMessage Sample.env Sample.dbProject Sample.versionData
      {| notificationStyle := js "normal"; changelogMaxLength := 10 |}
    = (Value m, [])
    /\ map embed_description (embeds m)
       = [Some (js "**Changelog**: ```" ++ [LF] ++ js "Fixed b..." ++ [LF] ++ js "```")].
Proof.
  eexists. split; vm_compute; reflexivity.
Qed.

(** * Further properties *)

(** ** The formatting helpers on any text *)

Lemma replace_br_length s :
  (length (Stated.replace_literal (js "<br>") [LF] s) <= length s)%nat.
Proof.
  induction s as [s IH] using (induction_ltof1 _ (@length Z)); unfold ltof in IH.
  destruct s as [|c s]; [apply Nat.le_refl|].
  rewrite replace_literal_cons.
  destruct (starts_with (js "<br>") (c :: s)).
  - change (pred (length (js "<br>"))) with 3%nat. cbn [app length].
    assert (H : (length (skipn 3 s) < length (c :: s))%nat)
      by (rewrite length_skipn; simpl; lia).
    specialize (IH _ H). rewrite length_skipn in IH. lia.
  - cbn [length]. assert (H : (length s < length (c :: s))%nat) by (simpl; lia).
    specialize (IH _ H). lia.
Qed.

Lemma remove_enclosed_length open inside close s :
  (length (Stated.remove_enclosed open inside close s) <= length s)%nat.
Proof.
  induction s as [s IH] using (induction_ltof1 _ (@length Z)); unfold ltof in IH.
  destruct s as [|c s]; [apply Nat.le_refl|].
  rewrite remove_enclosed_cons.
  assert (Hkeep : (length (c :: Stated.remove_enclosed open inside close s)
                   <= length (c :: s))%nat).
  { cbn [length]. assert (H : (length s < length (c :: s))%nat) by (simpl; lia).
    specialize (IH _ H). lia. }
  destruct (c =? open); [|exact Hkeep].
  destruct (Stated.find_close inside close s) as [n|]; [|exact Hkeep].
  assert (H : (length (skipn (S n) s) < length (c :: s))%nat)
    by (rewrite length_skipn; simpl; lia).
  specialize (IH _ H). rewrite length_skipn in IH. cbn [length]. lia.
Qed.

Lemma stripHtml_in_line_length text :
  (length (Stated.stripHtml_in_line text) <= length text)%nat.
Proof.
  unfold Stated.stripHtml_in_line.
  eapply Nat.le_trans; [apply remove_enclosed_length|].
  eapply Nat.le_trans; [apply remove_enclosed_length|].
  apply replace_br_length.
Qed.

(** X1: [formatHtmlChangelog] never returns a text longer than the one it is
    given. *)
Theorem formatHtmlChangelog_length changelog :
  (length (formatHtmlChangelog changelog) <= length changelog)%nat.
Proof.
  rewrite formatHtmlChangelog_passes. apply stripHtml_in_line_length.
Qed.

(** X2: a text without [<] and without [&] is returned by
    [formatHtmlChangelog] as it is. *)
Theorem formatHtmlChangelog_plain changelog :
  Forall (fun c => c <> LT /\ c <> AMPERSAND) changelog ->
  formatHtmlChangelog changelog = changelog.
Proof.
  intros H. rewrite formatHtmlChangelog_passes. unfold Stated.stripHtml_in_line.
  assert (Hbr : Stated.replace_literal (js "<br>") [LF] changelog = changelog).
  { induction H as [|c s [Hc _] _ IH]; [reflexivity|].
    rewrite replace_literal_cons.
    change (starts_with (js "<br>") (c :: s))
      with ((c =? LT) && starts_with (js "br>") s).
    apply Z.eqb_neq in Hc. rewrite Hc. cbn [andb]. rewrite IH. reflexivity. }
  assert (Hkeep : forall open inside close t,
             Forall (fun c => c <> open) t ->
             Stated.remove_enclosed open inside close t = t).
  { intros open inside close t Hopen.
    induction Hopen as [|c s Hc _ IH]; [reflexivity|].
    rewrite remove_enclosed_cons. apply Z.eqb_neq in Hc. rewrite Hc, IH. reflexivity. }
  rewrite Hbr.
  rewrite (Hkeep LT)
    by (eapply Forall_impl; [|exact H]; intros c [Hc _]; exact Hc).
  rewrite (Hkeep AMPERSAND)
    by (eapply Forall_impl; [|exact H]; intros c [_ Hc]; exact Hc).
  reflexivity.
Qed.

Lemma formatHtmlChangelog_plain_witness :
  formatHtmlChangelog (js "Fixed a crash; added 2 > 1 checks")
  = js "Fixed a crash; added 2 > 1 checks".
Proof.
  apply formatHtmlChangelog_plain.
  vm_compute. repeat (apply Forall_cons; [split; intros H; discriminate H|]).
  apply Forall_nil.
Defined.

(** X3: with a [maxLength] of 3 or more, [trimChangelog] never returns more
    than [maxLength] characters; with any [maxLength] it returns at most
    three characters more than the text it is given. *)
Theorem trimChangelog_length changelog maxLength :
  (3 <= maxLength -> Z.of_nat (length (trimChangelog changelog maxLength)) <= maxLength)
  /\ (length (trimChangelog changelog maxLength) <= length changelog + 3)%nat.
Proof.
  pose proof (stripHtml_in_line_length changelog) as Hlen.
  rewrite <- formatHtmlChangelog_passes in Hlen.
  unfold trimChangelog.
  destruct (Z.ltb_spec maxLength (Z.of_nat (length (formatHtmlChangelog changelog))))
    as [Hlt|Hge].
  - rewrite slice_from_start, length_app, length_firstn.
    change (length (js "...")) with 3%nat. split; [|lia].
    intros H3. destruct (Z.ltb_spec (maxLength - 3) 0); lia.
  - split; [lia|lia].
Qed.

Lemma trimChangelog_length_witness :
  Z.of_nat (length (trimChangelog (js "<b>Fixed</b> a crash<br>and more") 12)) <= 12.
Proof.
  apply (proj1 (trimChangelog_length (js "<b>Fixed</b> a crash<br>and more") 12)). lia.
Defined.

Lemma In_skipn {A} (x : A) n l : In x (skipn n l) -> In x l.
Proof.
  intros H. rewrite <- (firstn_skipn n l). apply in_or_app. right. exact H.
Qed.

Lemma replace_br_units s :
  Forall (fun c => In c s \/ c = LF) (Stated.replace_literal (js "<br>") [LF] s).
Proof.
  induction s as [s IH] using (induction_ltof1 _ (@length Z)); unfold ltof in IH.
  destruct s as [|c s]; [constructor|].
  rewrite replace_literal_cons.
  destruct (starts_with (js "<br>") (c :: s)).
  - cbn [app]. constructor; [right; reflexivity|].
    eapply Forall_impl; [|apply IH; rewrite length_skipn; simpl; lia].
    intros d [H| ->]; [left|right; reflexivity].
    right. exact (In_skipn _ _ _ H).
  - constructor; [left; left; reflexivity|].
    eapply Forall_impl; [|apply IH; simpl; lia].
    intros d [H| ->]; [left; right; exact H|right; reflexivity].
Qed.

Lemma remove_enclosed_units open inside close s :
  Forall (fun c => In c s) (Stated.remove_enclosed open inside close s).
Proof.
  induction s as [s IH] using (induction_ltof1 _ (@length Z)); unfold ltof in IH.
  destruct s as [|c s]; [constructor|].
  rewrite remove_enclosed_cons.
  assert (Hkeep : Forall (fun d => In d (c :: s))
                    (c :: Stated.remove_enclosed open inside close s)).
  { constructor; [left; reflexivity|].
    eapply Forall_impl; [|apply IH; simpl; lia].
    intros d H. right. exact H. }
  destruct (c =? open); [|exact Hkeep].
  destruct (Stated.find_close inside close s) as [n|]; [|exact Hkeep].
  eapply Forall_impl; [|apply IH; rewrite length_skipn; simpl; lia].
  intros d H. right. exact (In_skipn _ _ _ H).
Qed.

(** X4: [formatHtmlChangelog] invents no text: every character of its
    result is a character of the text it is given, or a line feed. *)
Theorem formatHtmlChangelog_units changelog :
  Forall (fun c => In c changelog \/ c = LF) (formatHtmlChangelog changelog).
Proof.
  rewrite formatHtmlChangelog_passes. unfold Stated.stripHtml_in_line.
  rewrite Forall_forall. intros c H.
  pose proof (remove_enclosed_units AMPERSAND is_word_char SEMICOLON) as H1.
  pose proof (remove_enclosed_units LT (fun c => negb (is_line_terminator c)) GT) as H2.
  pose proof (replace_br_units changelog) as H3.
  rewrite Forall_forall in H3. apply H3.
  specialize (H2 (Stated.replace_literal (js "<br>") [LF] changelog)).
  rewrite Forall_forall in H2. apply H2.
  specialize (H1 (Stated.remove_enclosed LT (fun c => negb (is_line_terminator c)) GT
                    (Stated.replace_literal (js "<br>") [LF] changelog))).
  rewrite Forall_forall in H1. apply H1. exact H.
Qed.

(** ** Every invocation *)

Lemma strict_eq_true a b : strict_eq a b = true -> a = b.
Proof.
  unfold strict_eq. destruct (jsstring_eq_dec a b); [trivial|discriminate].
Qed.

Lemma strict_eq_false a b : a <> b -> strict_eq a b = false.
Proof.
  unfold strict_eq. destruct (jsstring_eq_dec a b); [contradiction|reflexivity].
Qed.

Section Invocations.

Variable env : Env.

Ltac run := cbn [bind call deref ret throw warn debug emit return_ app fst snd].

Ltac stopped :=
  run; right; eexists _, _; split; [reflexivity|];
  split; [intros ? H; discriminate H|];
  unfold count; cbn [filter is_fetch is_debug is_send length]; repeat split; lia.

(** How the [switch] on the platform can end: with the version data, after
    one request and its logging; or without it, after one request at most
    and with nothing sent. *)
Lemma getVersionData_cases requestedProject dbProject :
  (exists request versionData,
      is_fetch request = true
      /\ (platform dbProject = js "curseforge" \/ platform dbProject = js "modrinth")
      /\ getVersionData env requestedProject dbProject
         = (Value versionData, [request; Debug versionData]))
  \/ (exists o t,
         getVersionData env requestedProject dbProject = (o, t)
         /\ (forall versionData, o <> Value versionData)
         /\ (count is_fetch t <= 1)%nat
         /\ count is_debug t = 0%nat
         /\ count is_send t = 0%nat).
Proof.
  unfold getVersionData.
  destruct (strict_eq (platform dbProject) (js "curseforge")) eqn:Ecf.
  - apply strict_eq_true in Ecf.
    destruct requestedProject as [p|p]; [|stopped].
    destruct (at_index (latestFiles p) _) as [latestFile|]; run; [|stopped].
    destruct (getModFileChangelog env _ _) as [response|]; run; [|stopped].
    destruct (negb (statusCode response =? 200)); run; [stopped|].
    destruct (at_index (latestFilesIndexes p) 0) as [firstIndex|]; run; [|stopped].
    left. eexists _, _. split; [|split; [left; exact Ecf|reflexivity]]; reflexivity.
  - destruct (strict_eq (platform dbProject) (js "modrinth")) eqn:Emr; [|stopped].
    apply strict_eq_true in Emr. run.
    destruct (listProjectVersions env _) as [response|]; run; [|stopped].
    destruct (negb (statusCode response =? 200)); run; [stopped|].
    destruct (at_index _ 0) as [first|]; run; [|stopped].
    left. eexists _, _. split; [|split; [right; exact Emr|reflexivity]]; reflexivity.
Qed.

Lemma sendUpdateEmbed_unresolved requestedProject dbProject client o t :
  getVersionData env requestedProject dbProject = (o, t) ->
  (forall versionData, o <> Value versionData) ->
  exists o',
    sendUpdateEmbed env requestedProject dbProject client = (o', t)
    /\ forall u, o' <> Value u.
Proof.
  intros H Ho. unfold sendUpdateEmbed. rewrite H.
  destruct o as [versionData| |e]; [destruct (Ho versionData eq_refl)| |];
    eexists; (split; [reflexivity|intros u Hu; discriminate Hu]).
Qed.

Lemma notifyTrackedProject_no_destination dbProject client versionData trackedProject :
  destination client trackedProject = None ->
  exists msg,
    notifyTrackedProject env dbProject client versionData trackedProject
    = (Value tt, [Warn msg]).
Proof.
  intros H. apply notifyTrackedProject_not_in_cache.
  unfold not_in_cache. unfold destination in H.
  destruct (guilds_cache_get client (guildId trackedProject)); [exact H|exact I].
Qed.

Lemma notifyTrackedProject_destination dbProject client versionData trackedProject channel :
  destination client trackedProject = Some channel ->
  notifyTrackedProject env dbProject client versionData trackedProject
  = match Guilds_findByPk env (guildId trackedProject) with
    | None => (Throw TypeError, [FindByPk (guildId trackedProject)])
    | Some guildSettings =>
        let sent := bind (styledMessage env dbProject versionData guildSettings)
                         (send channel) in
        (fst sent, FindByPk (guildId trackedProject) :: snd sent)
    end.
Proof.
  unfold destination, notifyTrackedProject, styledMessage. intros H.
  destruct (guilds_cache_get client (guildId trackedProject)) as [guild|]; [|discriminate].
  rewrite H. run.
  destruct (Guilds_findByPk env (guildId trackedProject)) as [guildSettings|];
    [|reflexivity].
  run. destruct (strict_eq (notificationStyle guildSettings) (js "compact"));
    match goal with |- context [bind ?m ?k] => destruct (bind m k) end; reflexivity.
Qed.

Lemma deliver_cons dbProject client versionData row rows :
  deliver env dbProject client versionData (row :: rows)
  = bind (notifyTrackedProject env dbProject client versionData row)
         (fun _ => deliver env dbProject client versionData rows).
Proof.
  reflexivity.
Qed.

(** Every message the loop sends goes to the cached channel of a tracked row
    and is the message the settings of that row's guild select. *)
Lemma deliver_sends dbProject client versionData rows channelId m :
  In (Send channelId m) (snd (deliver env dbProject client versionData rows)) ->
  exists row channel guildSettings,
    In row rows
    /\ destination client row = Some channel
    /\ channel_id channel = channelId
    /\ Guilds_findByPk env (guildId row) = Some guildSettings
    /\ styledMessage env dbProject versionData guildSettings = (Value m, []).
Proof.
  induction rows as [|row rows IH]; [intros []|].
  rewrite deliver_cons. intros H.
  assert (Hrest : In (Send channelId m)
                     (snd (deliver env dbProject client versionData rows)) ->
                  exists row' channel guildSettings,
                    In row' (row :: rows)
                    /\ destination client row' = Some channel
                    /\ channel_id channel = channelId
                    /\ Guilds_findByPk env (guildId row') = Some guildSettings
                    /\ styledMessage env dbProject versionData guildSettings
                       = (Value m, [])).
  { intros Hin. destruct (IH Hin) as (row' & channel & gs & Hrow & Hrest).
    exists row', channel, gs. split; [right; exact Hrow|exact Hrest]. }
  destruct (destination client row) as [channel|] eqn:Hd.
  - rewrite (notifyTrackedProject_destination _ _ _ _ _ Hd) in H.
    destruct (Guilds_findByPk env (guildId row)) as [gs|] eqn:Hgs.
    + destruct (styledMessage_result env dbProject versionData gs) as [m' [Hm|Hm]];
        rewrite Hm in H; cbv zeta in H; cbn [bind send fst snd app] in H.
      * assert (Hhere : Send channelId m = Send (channel_id channel) m' ->
                        exists row' channel' guildSettings,
                          In row' (row :: rows)
                          /\ destination client row' = Some channel'
                          /\ channel_id channel' = channelId
                          /\ Guilds_findByPk env (guildId row') = Some guildSettings
                          /\ styledMessage env dbProject versionData guildSettings
                             = (Value m, [])).
        { intros [= -> ->]. exists row, channel, gs.
          repeat split; [left; reflexivity|exact Hd|exact Hgs|exact Hm]. }
        destruct (accepts channel m'); cbn [bind snd] in H.
        -- destruct (deliver env dbProject client versionData rows) as [o t].
           cbn [snd app] in *. destruct H as [H|[H|H]];
             [discriminate H|symmetry in H; exact (Hhere H)|exact (Hrest H)].
        -- destruct H as [H|[H|[]]]; [discriminate H|symmetry in H; exact (Hhere H)].
      * destruct H as [H|[]]. discriminate H.
    + cbn [bind snd] in H. destruct H as [H|[]]. discriminate H.
  - destruct (notifyTrackedProject_no_destination dbProject client versionData row Hd)
      as [msg Hrow].
    rewrite Hrow in H. cbn [bind] in H.
    destruct (deliver env dbProject client versionData rows) as [o t].
    cbn [snd app] in *. destruct H as [H|H]; [discriminate H|exact (Hrest H)].
Qed.

(** Each row gives one message at most; when the loop comes to its end,
    each row was given its message or its warning. *)
Lemma deliver_accounting dbProject client versionData rows :
  let result := deliver env dbProject client versionData rows in
  (count is_send (snd result) <= length rows)%nat
  /\ (fst result = Value tt ->
      (count is_send (snd result) + count is_warn (snd result))%nat = length rows).
Proof.
  induction rows as [|row rows [IH1 IH2]]; [split; reflexivity|].
  cbv zeta in *. rewrite deliver_cons.
  destruct (destination client row) as [channel|] eqn:Hd.
  - rewrite (notifyTrackedProject_destination _ _ _ _ _ Hd).
    destruct (Guilds_findByPk env (guildId row)) as [gs|].
    + destruct (styledMessage_result env dbProject versionData gs) as [m [-> | ->]];
        cbv zeta; cbn [bind send fst snd app].
      * destruct (accepts channel m); cbn [bind].
        -- destruct (deliver env dbProject client versionData rows) as [o t].
           unfold count in *. cbn [fst snd app filter is_send is_warn length] in *.
           split; [lia|]. intros H. specialize (IH2 H). lia.
        -- unfold count. cbn [fst snd filter is_send is_warn length].
           split; [lia|discriminate].
      * unfold count. cbn [fst snd filter is_send is_warn length].
        split; [lia|discriminate].
    + cbn [bind]. unfold count. cbn [fst snd filter is_send is_warn length].
      split; [lia|discriminate].
  - destruct (notifyTrackedProject_no_destination dbProject client versionData row Hd)
      as [msg ->].
    cbn [bind]. destruct (deliver env dbProject client versionData rows) as [o t].
    unfold count in *. cbn [fst snd app filter is_send is_warn length] in *.
    split; [lia|]. intros H. specialize (IH2 H). lia.
Qed.

End Invocations.

Section Extras.

Variable env : Env.

(** X5: for a platform other than curseforge and modrinth [sendUpdateEmbed]
    logs that the platform is not implemented and returns: nothing is
    requested upstream, looked up or sent. *)
Theorem sendUpdateEmbed_unsupported_platform requestedProject dbProject client :
  platform dbProject <> js "curseforge" ->
  platform dbProject <> js "modrinth" ->
  sendUpdateEmbed env requestedProject dbProject client
  = (Return,
     [Warn (js "Update notification functionality has not been implemented for this platform yet.")]).
Proof.
  intros Hcf Hmr. unfold sendUpdateEmbed, getVersionData.
  rewrite (strict_eq_false _ _ Hcf), (strict_eq_false _ _ Hmr). reflexivity.
Qed.

(** X6: for a Modrinth project whose version listing succeeds, the version
    data is read from the first listed version alone: its changelog, date,
    name and number, its type capitalized (Release, Beta, Alpha for release,
    beta, alpha), the project's icon, and the URL made of the project type,
    the slug and the version number. *)
Theorem sendUpdateEmbed_modrinth_version p dbProject client response first versions :
  platform dbProject = js "modrinth" ->
  listProjectVersions env (StrId (mr_id p)) = Some response ->
  statusCode response = 200 ->
  getJSONResponse_versions env (body response) = first :: versions ->
  let versionData :=
    {| changelog := version_changelog first;
       date := date_published first;
       iconURL := icon_url p;
       name := version_name first;
       number := version_number first;
       type := capitalize (version_type first);
       url := js "https://modrinth.com/" ++ project_type p ++ js "/" ++ mr_slug p
                ++ js "/version/" ++ version_number first |} in
  (exists o loop,
      sendUpdateEmbed env (Modrinth p) dbProject client
      = (o, Fetch_listProjectVersions (StrId (mr_id p))
            :: Debug versionData :: FindAll (db_id dbProject) :: loop)
      /\ Forall (delivery_event env dbProject versionData) loop)
  /\ (version_type first = js "release" -> type versionData = js "Release")
  /\ (version_type first = js "beta" -> type versionData = js "Beta")
  /\ (version_type first = js "alpha" -> type versionData = js "Alpha").
Proof.
  intros Hp Hresp Hstatus Hversions versionData.
  assert (Hversion : getVersionData env (Modrinth p) dbProject
                     = (Value versionData,
                        [Fetch_listProjectVersions (StrId (mr_id p)); Debug versionData])).
  { unfold getVersionData. rewrite Hp.
    change (strict_eq (js "modrinth") (js "curseforge")) with false.
    rewrite strict_eq_refl. cbv iota. cbn [project_id bind call].
    rewrite Hresp, Hstatus. cbn [Z.eqb Pos.eqb negb]. rewrite Hversions.
    change (at_index (first :: versions) 0) with (Some first).
    reflexivity. }
  split; [|repeat split; intros H; cbn [type versionData]; rewrite H; reflexivity].
  eexists _, _. split.
  - exact (sendUpdateEmbed_resolved env _ _ client _ _ Hversion).
  - apply deliver_events.
Qed.

(** X7: a request that is answered with status 200 but without a version in
    it (a CurseForge project without file indexes, an empty Modrinth
    listing) makes [sendUpdateEmbed] throw a TypeError right after the
    request: nothing is logged, looked up or sent. *)
Theorem sendUpdateEmbed_no_version dbProject client response :
  statusCode response = 200 ->
  (forall p files latestFile,
      platform dbProject = js "curseforge" ->
      latestFiles p = files ++ [latestFile] ->
      getModFileChangelog env (cf_id p) (file_id latestFile) = Some response ->
      latestFilesIndexes p = [] ->
      sendUpdateEmbed env (CurseForge p) dbProject client
      = (Throw TypeError, [Fetch_getModFileChangelog (cf_id p) (file_id latestFile)]))
  /\ (forall requestedProject,
         platform dbProject = js "modrinth" ->
         listProjectVersions env (project_id requestedProject) = Some response ->
         getJSONResponse_versions env (body response) = [] ->
         sendUpdateEmbed env requestedProject dbProject client
         = (Throw TypeError, [Fetch_listProjectVersions (project_id requestedProject)])).
Proof.
  intros Hstatus. split.
  - intros p files latestFile Hp Hfiles Hresp Hidx.
    apply (sendUpdateEmbed_malformed_payload env _ _ client _ response); [|exact Hstatus|].
    + rewrite <- Hresp. exact (reply_curseforge env p dbProject files latestFile Hp Hfiles).
    + unfold carries_version. rewrite Hp, strict_eq_refl, Hidx. intros H. apply H. reflexivity.
  - intros requestedProject Hp Hresp Hversions.
    apply (sendUpdateEmbed_malformed_payload env _ _ client _ response); [|exact Hstatus|].
    + rewrite <- Hresp. exact (reply_modrinth env requestedProject dbProject Hp).
    + unfold carries_version. rewrite Hp.
      change (strict_eq (js "modrinth") (js "curseforge")) with false. cbv iota.
      rewrite Hversions. intros H. apply H. reflexivity.
Qed.

(** X8: under the platform curseforge, a project without latest files (or
    one in the shape of Modrinth, which has no such list) makes
    [sendUpdateEmbed] throw a TypeError before anything is requested or
    logged. *)
Theorem sendUpdateEmbed_no_latest_file requestedProject dbProject client :
  platform dbProject = js "curseforge" ->
  match requestedProject with
  | CurseForge p => latestFiles p = []
  | Modrinth _ => True
  end ->
  sendUpdateEmbed env requestedProject dbProject client = (Throw TypeError, []).
Proof.
  intros Hp Hfiles. unfold sendUpdateEmbed, getVersionData.
  rewrite Hp, strict_eq_refl. destruct requestedProject as [p|p]; [|reflexivity].
  rewrite Hfiles. reflexivity.
Qed.

(** X9: when no row tracks the project, a successful invocation requests,
    logs the version data, looks the rows up and ends: nothing is sent, no
    warning is logged and nothing is thrown. *)
Theorem sendUpdateEmbed_no_rows requestedProject dbProject client request response :
  upstream_reply env requestedProject dbProject request (Some response) ->
  statusCode response = 200 ->
  carries_version env requestedProject dbProject response ->
  TrackedProjects_findAll env (db_id dbProject) = [] ->
  exists versionData,
    sendUpdateEmbed env requestedProject dbProject client
    = (Value tt, [request; Debug versionData; FindAll (db_id dbProject)]).
Proof.
  intros Hreply Hstatus Hcarries Hrows.
  destruct (getVersionData_success env _ _ _ _ Hreply Hstatus Hcarries)
    as [versionData Hversion].
  exists versionData.
  rewrite (sendUpdateEmbed_resolved env _ _ client _ _ Hversion), Hrows. reflexivity.
Qed.

(** X10: when the loop reaches a row whose channel is in the cache but whose
    guild has no settings row, [sendUpdateEmbed] throws a TypeError after
    the settings lookup: nothing is sent for this row, and the rows after it
    are not processed at all. *)
Theorem sendUpdateEmbed_missing_settings requestedProject dbProject client versionData pre
    before trackedProject after channel :
  getVersionData env requestedProject dbProject = (Value versionData, pre) ->
  TrackedProjects_findAll env (db_id dbProject) = before ++ trackedProject :: after ->
  destination client trackedProject = Some channel ->
  Guilds_findByPk env (guildId trackedProject) = None ->
  fst (deliver env dbProject client versionData before) = Value tt ->
  sendUpdateEmbed env requestedProject dbProject client
  = (Throw TypeError,
     pre ++ FindAll (db_id dbProject)
         :: snd (deliver env dbProject client versionData before)
         ++ [FindByPk (guildId trackedProject)]).
Proof.
  intros Hversion Hrows Hd Hgs Hbefore.
  rewrite (sendUpdateEmbed_resolved env _ _ client _ _ Hversion), Hrows.
  unfold deliver in *. rewrite (for_of_app _ _ _ Hbefore).
  cbn [for_of]. rewrite (notifyTrackedProject_destination env _ _ _ _ _ Hd), Hgs.
  reflexivity.
Qed.

(** X11: when the channel of a row rejects its message, [sendUpdateEmbed]
    throws after that send, and the rows after it are not processed: one
    failing destination keeps the later ones from their messages. *)
Theorem sendUpdateEmbed_send_rejected requestedProject dbProject client versionData pre
    before trackedProject after channel guildSettings m :
  getVersionData env requestedProject dbProject = (Value versionData, pre) ->
  TrackedProjects_findAll env (db_id dbProject) = before ++ trackedProject :: after ->
  destination client trackedProject = Some channel ->
  Guilds_findByPk env (guildId trackedProject) = Some guildSettings ->
  styledMessage env dbProject versionData guildSettings = (Value m, []) ->
  accepts channel m = false ->
  fst (deliver env dbProject client versionData before) = Value tt ->
  sendUpdateEmbed env requestedProject dbProject client
  = (Throw SendRejected,
     pre ++ FindAll (db_id dbProject)
         :: snd (deliver env dbProject client versionData before)
         ++ [FindByPk (guildId trackedProject); Send (channel_id channel) m]).
Proof.
  intros Hversion Hrows Hd Hgs Hm Hacc Hbefore.
  rewrite (sendUpdateEmbed_resolved env _ _ client _ _ Hversion), Hrows.
  unfold deliver in *. rewrite (for_of_app _ _ _ Hbefore).
  cbn [for_of]. rewrite (notifyTrackedProject_destination env _ _ _ _ _ Hd), Hgs, Hm.
  cbv zeta. cbn [bind send fst snd app]. rewrite Hacc. reflexivity.
Qed.

(** X16: when the loop reaches a row whose channel is in the cache and whose
    guild has a style other than compact, and [setThumbnail] does not accept
    the icon of the version, [sendUpdateEmbed] throws after the settings
    lookup: nothing is sent for this row, and the rows after it are not
    processed at all. *)
Theorem sendUpdateEmbed_builder_throws requestedProject dbProject client versionData pre
    before trackedProject after channel guildSettings :
  getVersionData env requestedProject dbProject = (Value versionData, pre) ->
  TrackedProjects_findAll env (db_id dbProject) = before ++ trackedProject :: after ->
  destination client trackedProject = Some channel ->
  Guilds_findByPk env (guildId trackedProject) = Some guildSettings ->
  notificationStyle guildSettings <> js "compact" ->
  builder_accepts env (call_setThumbnail (iconURL versionData)) = false ->
  fst (deliver env dbProject client versionData before) = Value tt ->
  sendUpdateEmbed env requestedProject dbProject client
  = (Throw ValidationError,
     pre ++ FindAll (db_id dbProject)
         :: snd (deliver env dbProject client versionData before)
         ++ [FindByPk (guildId trackedProject)]).
Proof.
  intros Hversion Hrows Hd Hgs Hstyle Hthumbnail Hbefore.
  rewrite (sendUpdateEmbed_resolved env _ _ client _ _ Hversion), Hrows.
  unfold deliver in *. rewrite (for_of_app _ _ _ Hbefore).
  cbn [for_of]. rewrite (notifyTrackedProject_destination env _ _ _ _ _ Hd), Hgs.
  unfold styledMessage. rewrite (strict_eq_false _ _ Hstyle).
  rewrite (fullMessage_thumbnail env _ _ _ Hthumbnail). reflexivity.
Qed.

(** What a trace holds when the version data was found. *)
Lemma sendUpdateEmbed_found requestedProject dbProject client :
  (exists request versionData,
      is_fetch request = true
      /\ (platform dbProject = js "curseforge" \/ platform dbProject = js "modrinth")
      /\ sendUpdateEmbed env requestedProject dbProject client
         = (fst (deliver env dbProject client versionData
                   (TrackedProjects_findAll env (db_id dbProject))),
            request :: Debug versionData :: FindAll (db_id dbProject)
            :: snd (deliver env dbProject client versionData
                      (TrackedProjects_findAll env (db_id dbProject)))))
  \/ (exists o t,
         sendUpdateEmbed env requestedProject dbProject client = (o, t)
         /\ (forall u, o <> Value u)
         /\ (count is_fetch t <= 1)%nat
         /\ count is_debug t = 0%nat
         /\ count is_send t = 0%nat).
Proof.
  destruct (getVersionData_cases env requestedProject dbProject)
    as [(request & versionData & Hfetch & Hp & Hversion)
       | (o & t & Hversion & Ho & Hcounts)].
  - left. exists request, versionData. split; [exact Hfetch|]. split; [exact Hp|].
    exact (sendUpdateEmbed_resolved env _ _ client _ _ Hversion).
  - right. destruct (sendUpdateEmbed_unresolved env _ _ client _ _ Hversion Ho)
      as (o' & Hsend & Ho').
    exists o', t. split; [exact Hsend|]. split; [exact Ho'|exact Hcounts].
Qed.

Lemma count_send_In t :
  count is_send t = 0%nat -> forall channelId m, ~ In (Send channelId m) t.
Proof.
  unfold count. induction t as [|e t IH]; intros H channelId m []; subst.
  - discriminate H.
  - destruct e; cbn [filter is_send length] in H; try discriminate H;
      exact (IH H channelId m H0).
Qed.

(** X12: in every invocation each tracked row is sent one message at most;
    and when the invocation ends without returning early or throwing, every
    tracked row was given either its message or a warning. *)
Theorem sendUpdateEmbed_accounting requestedProject dbProject client :
  let result := sendUpdateEmbed env requestedProject dbProject client in
  let rows := TrackedProjects_findAll env (db_id dbProject) in
  (count is_send (snd result) <= length rows)%nat
  /\ (fst result = Value tt ->
      (count is_send (snd result) + count is_warn (snd result))%nat = length rows).
Proof.
  cbv zeta.
  destruct (sendUpdateEmbed_found requestedProject dbProject client)
    as [(request & versionData & Hfetch & _ & ->) | (o & t & -> & Ho & _ & _ & Hsend)].
  - destruct (deliver_accounting env dbProject client versionData
                (TrackedProjects_findAll env (db_id dbProject))) as [H1 H2].
    cbv zeta in H1, H2.
    assert (Hs : is_send request = false) by (destruct request; try discriminate; reflexivity).
    assert (Hw : is_warn request = false) by (destruct request; try discriminate; reflexivity).
    unfold count in *. cbn [fst snd filter is_send is_warn length].
    rewrite Hs, Hw. split; [exact H1|exact H2].
  - cbn [fst snd]. rewrite Hsend. split; [lia|].
    intros H. destruct (Ho tt H).
Qed.

Lemma sendUpdateEmbed_sent requestedProject dbProject client channelId m :
  In (Send channelId m) (snd (sendUpdateEmbed env requestedProject dbProject client)) ->
  exists row channel guildSettings versionData,
    In row (TrackedProjects_findAll env (db_id dbProject))
    /\ destination client row = Some channel
    /\ channel_id channel = channelId
    /\ Guilds_findByPk env (guildId row) = Some guildSettings
    /\ styledMessage env dbProject versionData guildSettings = (Value m, []).
Proof.
  destruct (sendUpdateEmbed_found requestedProject dbProject client)
    as [(request & versionData & Hfetch & _ & ->) | (o & t & -> & _ & _ & _ & Hsend)].
  - cbn [snd]. intros [H|[H|[H|H]]]; [subst; discriminate Hfetch|discriminate H..|].
    destruct (deliver_sends env _ _ _ _ _ _ H) as (row & channel & gs & Hrest).
    exists row, channel, gs, versionData. exact Hrest.
  - cbn [snd]. intros H. destruct (count_send_In t Hsend channelId m H).
Qed.

(** X13: whatever the inputs, a message is only ever sent to the cached
    channel of a row that tracks the project, and it is the message that
    the settings of that row's guild select: compact for the style compact,
    full for any other. *)
Theorem sendUpdateEmbed_sends_tracked requestedProject dbProject client channelId m :
  In (Send channelId m) (snd (sendUpdateEmbed env requestedProject dbProject client)) ->
  exists row channel guildSettings versionData,
    In row (TrackedProjects_findAll env (db_id dbProject))
    /\ destination client row = Some channel
    /\ channel_id channel = channelId
    /\ Guilds_findByPk env (guildId row) = Some guildSettings
    /\ styledMessage env dbProject versionData guildSettings = (Value m, []).
Proof.
  intros H. destruct (sendUpdateEmbed_sent _ _ _ _ _ H) as (row & channel & gs & vd & Hrest).
  exists row, channel, gs, vd. exact Hrest.
Qed.

(** X14: every message that is sent goes to the cached channel of a row
    that tracks the project and carries the marks of one of the two
    platforms, as the style of that row's guild has them. Its colour is
    #f87a1b for curseforge and #1bd96a for modrinth. A full message has the
    author From curseforge.com or From modrinth.com, with its icon and link,
    no footer, and one row with one link button labelled View on Curseforge
    or View on Modrinth; a compact message has no author and no button, and
    the icon of the platform in its footer. The entries for an unknown
    platform are never sent. *)
Theorem sendUpdateEmbed_sends_platform requestedProject dbProject client channelId m :
  In (Send channelId m) (snd (sendUpdateEmbed env requestedProject dbProject client)) ->
  exists row channel guildSettings,
    In row (TrackedProjects_findAll env (db_id dbProject))
    /\ destination client row = Some channel
    /\ channel_id channel = channelId
    /\ Guilds_findByPk env (guildId row) = Some guildSettings
    /\ let compact := strict_eq (notificationStyle guildSettings) (js "compact") in
       let colors := map embed_color (embeds m) in
       let authors := map embed_author (embeds m) in
       let footerIcons := map (option_map footer_iconURL) (map embed_footer (embeds m)) in
       let labels := map (map button_label) (components m) in
       let styles := map (map button_style) (components m) in
       (platform dbProject = js "curseforge"
        /\ colors = [Some (js "#f87a1b")]
        /\ authors
           = [if compact then None
              else Some {| author_name := js "From curseforge.com";
                           author_iconURL := Some (js "https://i.imgur.com/uA9lFcz.png");
                           author_url := Some (js "https://curseforge.com") |}]
        /\ footerIcons
           = [if compact then Some (Some (js "https://i.imgur.com/uA9lFcz.png")) else None]
        /\ labels = (if compact then [] else [[Some (js "View on Curseforge")]])
        /\ styles = (if compact then [] else [[Some Link]]))
       \/ (platform dbProject = js "modrinth"
           /\ colors = [Some (js "#1bd96a")]
           /\ authors
              = [if compact then None
                 else Some {| author_name := js "From modrinth.com";
                              author_iconURL := Some (js "https://i.imgur.com/2XDguyk.png");
                              author_url := Some (js "https://modrinth.com") |}]
           /\ footerIcons
              = [if compact then Some (Some (js "https://i.imgur.com/2XDguyk.png")) else None]
           /\ labels = (if compact then [] else [[Some (js "View on Modrinth")]])
           /\ styles = (if compact then [] else [[Some Link]])).
Proof.
  intros H.
  assert (Hp : platform dbProject = js "curseforge" \/ platform dbProject = js "modrinth").
  { destruct (sendUpdateEmbed_found requestedProject dbProject client)
      as [(_ & _ & _ & Hp & _) | (o & t & Ht & _ & _ & _ & Hsend)]; [exact Hp|].
    rewrite Ht in H. destruct (count_send_In t Hsend channelId m H). }
  destruct (sendUpdateEmbed_sent _ _ _ _ _ H)
    as (row & channel & gs & versionData & Hrow & Hd & Hid & Hgs & Hm).
  exists row, channel, gs.
  split; [exact Hrow|]. split; [exact Hd|]. split; [exact Hid|]. split; [exact Hgs|].
  cbv zeta. rewrite (styledMessage_content env _ _ _ _ Hm).
  unfold compactContent, fullContent.
  destruct Hp as [Hp|Hp]; [left|right]; rewrite Hp;
    (split; [reflexivity|]);
    destruct (strict_eq (notificationStyle gs) (js "compact"));
    repeat split; reflexivity.
Qed.

(** X15: whatever the inputs, an invocation asks upstream once at most and
    computes one version data at most; and whenever a message is sent,
    exactly one request and one version data came before. *)
Theorem sendUpdateEmbed_one_request requestedProject dbProject client :
  let t := snd (sendUpdateEmbed env requestedProject dbProject client) in
  (count is_fetch t <= 1)%nat
  /\ (count is_debug t <= 1)%nat
  /\ ((0 < count is_send t)%nat ->
      count is_fetch t = 1%nat /\ count is_debug t = 1%nat).
Proof.
  cbv zeta.
  destruct (sendUpdateEmbed_found requestedProject dbProject client)
    as [(request & versionData & Hfetch & _ & ->)
       | (o & t & -> & _ & Hf & Hd & Hsend)].
  - destruct (delivery_events_counts env _ _ _
                (deliver_events env dbProject client versionData
                   (TrackedProjects_findAll env (db_id dbProject)))) as [H1 H2].
    assert (Hd : is_debug request = false) by (destruct request; try discriminate; reflexivity).
    unfold count in *. cbn [snd filter is_fetch is_debug length].
    rewrite Hfetch, Hd. cbn [length]. rewrite H1, H2. repeat split; lia.
  - cbn [snd]. rewrite Hd, Hsend. repeat split; lia.
Qed.

Lemma sent_to_app t1 t2 : sent_to (t1 ++ t2) = sent_to t1 ++ sent_to t2.
Proof.
  unfold sent_to. apply flat_map_app.
Qed.

Lemma sent_to_none t : count is_send t = 0%nat -> sent_to t = [].
Proof.
  unfold count, sent_to. induction t as [|e t IH]; [reflexivity|].
  destruct e; cbn [filter is_send length flat_map app]; try exact IH.
  discriminate.
Qed.

Lemma deliver_order dbProject client versionData rows :
  let result := deliver env dbProject client versionData rows in
  (exists later, destinations client rows = sent_to (snd result) ++ later)
  /\ (fst result = Value tt -> sent_to (snd result) = destinations client rows).
Proof.
  induction rows as [|row rows [[later IH1] IH2]];
    [split; [exists []|]; reflexivity|].
  cbv zeta in *. rewrite deliver_cons.
  unfold destinations in *. cbn [flat_map].
  destruct (destination client row) as [channel|] eqn:Hd.
  - rewrite (notifyTrackedProject_destination env _ _ _ _ _ Hd).
    destruct (Guilds_findByPk env (guildId row)) as [gs|].
    + destruct (styledMessage_result env dbProject versionData gs) as [m [-> | ->]];
        cbv zeta; cbn [bind send fst snd app].
      * destruct (accepts channel m); cbn [bind].
        -- destruct (deliver env dbProject client versionData rows) as [o t].
           cbn [fst snd app sent_to flat_map] in *. fold (sent_to t) in *.
           split; [exists later; rewrite IH1; reflexivity|].
           intros H. rewrite (IH2 H). reflexivity.
        -- cbn [fst snd sent_to flat_map app]. split; [|discriminate].
           eexists. reflexivity.
      * cbn [fst snd sent_to flat_map app]. split; [|discriminate].
        eexists. reflexivity.
    + cbn [bind fst snd sent_to flat_map app]. split; [|discriminate].
      eexists. reflexivity.
  - destruct (notifyTrackedProject_no_destination env dbProject client versionData row Hd)
      as [msg ->].
    cbn [bind]. destruct (deliver env dbProject client versionData rows) as [o t].
    cbn [fst snd app sent_to flat_map] in *. fold (sent_to t) in *.
    split; [exists later; exact IH1|exact IH2].
Qed.

(** X17: the messages go out in the order of the tracked rows, one to each
    row that has a cached channel: in every invocation the channels sent to
    are a first part of the cached channels of the rows, and all of them
    when the invocation ends without returning early or throwing. *)
Theorem sendUpdateEmbed_order requestedProject dbProject client :
  let result := sendUpdateEmbed env requestedProject dbProject client in
  let rows := TrackedProjects_findAll env (db_id dbProject) in
  (exists later, destinations client rows = sent_to (snd result) ++ later)
  /\ (fst result = Value tt -> sent_to (snd result) = destinations client rows).
Proof.
  cbv zeta.
  destruct (sendUpdateEmbed_found requestedProject dbProject client)
    as [(request & versionData & Hfetch & _ & ->) | (o & t & -> & Ho & _ & _ & Hsend)].
  - destruct (deliver_order dbProject client versionData
                (TrackedProjects_findAll env (db_id dbProject))) as [H1 H2].
    cbv zeta in H1, H2.
    assert (Hr : sent_to [request; Debug versionData; FindAll (db_id dbProject)] = [])
      by (destruct request; try discriminate; reflexivity).
    cbn [fst snd].
    change (request :: Debug versionData :: FindAll (db_id dbProject)
              :: snd (deliver env dbProject client versionData
                        (TrackedProjects_findAll env (db_id dbProject))))
      with ([request; Debug versionData; FindAll (db_id dbProject)]
              ++ snd (deliver env dbProject client versionData
                        (TrackedProjects_findAll env (db_id dbProject)))).
    rewrite sent_to_app, Hr. split; [exact H1|exact H2].
  - cbn [fst snd]. rewrite (sent_to_none t Hsend). split.
    + eexists. reflexivity.
    + intros H. destruct (Ho tt H).
Qed.

End Extras.

(** ** The further sample invocations *)

Lemma sendUpdateEmbed_unsupported_platform_witness :
  sendUpdateEmbed Sample.env (CurseForge (Sample.project 238222)) Cases.other_db
    Sample.client
  = (Return,
     [Warn (js "Update notification functionality has not been implemented for this platform yet.")]).
Proof.
  apply (sendUpdateEmbed_unsupported_platform Sample.env
           (CurseForge (Sample.project 238222)) Cases.other_db Sample.client).
  - vm_compute. intros H. discriminate H.
  - vm_compute. intros H. discriminate H.
Defined.

Lemma sendUpdateEmbed_modrinth_version_witness :
  exists o loop,
    sendUpdateEmbed Sample.env (Modrinth Cases.sodium) Cases.modrinth_db Sample.client
    = (o, Fetch_listProjectVersions (StrId (js "AANobbMI"))
          :: Debug {| changelog := js "Fixes";
                      date := js "2023-04-01T12:00:00Z";
                      iconURL := Some (js "https://cdn.modrinth.com/data/AANobbMI/icon.png");
                      name := js "Sodium 0.4.10";
                      number := js "mc1.19.4-0.4.10";
                      type := js "Release";
                      url := js "https://modrinth.com/mod/sodium/version/mc1.19.4-0.4.10" |}
          :: FindAll (js "AANobbMI") :: loop).
Proof.
  destruct (proj1 (sendUpdateEmbed_modrinth_version Sample.env Cases.sodium
                     Cases.modrinth_db Sample.client
                     {| statusCode := 200; body := js "[]" |}
                     {| version_changelog := js "Fixes";
                        date_published := js "2023-04-01T12:00:00Z";
                        version_name := js "Sodium 0.4.10";
                        version_number := js "mc1.19.4-0.4.10";
                        version_type := js "release" |}
                     [] eq_refl eq_refl eq_refl eq_refl))
    as (o & loop & H & _).
  exists o, loop. exact H.
Defined.

Lemma sendUpdateEmbed_no_version_witness :
  sendUpdateEmbed Sample.env (CurseForge Cases.no_indexes) Sample.dbProject Sample.client
  = (Throw TypeError, [Fetch_getModFileChangelog 238222 4713]).
Proof.
  exact (proj1 (sendUpdateEmbed_no_version Sample.env Sample.dbProject Sample.client
                  {| statusCode := 200; body := js "{}" |} eq_refl)
           Cases.no_indexes [Sample.older] Sample.newest eq_refl eq_refl eq_refl eq_refl).
Defined.

Lemma sendUpdateEmbed_no_latest_file_witness :
  sendUpdateEmbed Sample.env (CurseForge Cases.no_files) Sample.dbProject Sample.client
  = (Throw TypeError, []).
Proof.
  exact (sendUpdateEmbed_no_latest_file Sample.env (CurseForge Cases.no_files)
           Sample.dbProject Sample.client eq_refl eq_refl).
Defined.

Lemma sendUpdateEmbed_no_rows_witness :
  exists versionData,
    sendUpdateEmbed (Cases.env_of [] (Guilds_findByPk Sample.env))
      (CurseForge (Sample.project 238222)) Sample.dbProject Sample.client
    = (Value tt,
       [Fetch_getModFileChangelog 238222 4713; Debug versionData; FindAll (js "238222")]).
Proof.
  apply (sendUpdateEmbed_no_rows (Cases.env_of [] (Guilds_findByPk Sample.env))
           (CurseForge (Sample.project 238222)) Sample.dbProject Sample.client
           (Fetch_getModFileChangelog 238222 4713)
           {| statusCode := 200; body := js "{}" |}).
  - exact (reply_curseforge (Cases.env_of [] (Guilds_findByPk Sample.env))
             (Sample.project 238222) Sample.dbProject
             [Sample.older] Sample.newest eq_refl eq_refl).
  - reflexivity.
  - vm_compute. intros H. discriminate H.
  - reflexivity.
Defined.

Lemma sendUpdateEmbed_missing_settings_witness :
  sendUpdateEmbed (Cases.env_of Cases.rows (fun _ => None))
    (CurseForge (Sample.project 238222)) Sample.dbProject Sample.client
  = (Throw TypeError,
     [ Fetch_getModFileChangelog 238222 4713;
       Debug Sample.versionData;
       FindAll (js "238222");
       Warn (js "Could not find guild with ID g0 in cache. Update notification not sent.");
       FindByPk (js "g1") ]).
Proof.
  apply (sendUpdateEmbed_missing_settings (Cases.env_of Cases.rows (fun _ => None))
           (CurseForge (Sample.project 238222)) Sample.dbProject Sample.client
           Sample.versionData
           [Fetch_getModFileChangelog 238222 4713; Debug Sample.versionData]
           [ {| guildId := js "g0"; channelId := js "c0" |} ]
           {| guildId := js "g1"; channelId := js "c1" |}
           [ {| guildId := js "g2"; channelId := js "c2" |} ]
           (Sample.channel (js "c1"))).
  - vm_compute. reflexivity.
  - reflexivity.
  - vm_compute. reflexivity.
  - reflexivity.
  - vm_compute. reflexivity.
Defined.

Lemma sendUpdateEmbed_send_rejected_witness :
  sendUpdateEmbed (Cases.env_of Cases.rows (Guilds_findByPk Sample.env))
    (CurseForge (Sample.project 238222)) Sample.dbProject Cases.closed_client
  = (Throw SendRejected,
     [ Fetch_getModFileChangelog 238222 4713;
       Debug Sample.versionData;
       FindAll (js "238222");
       Warn (js "Could not find guild with ID g0 in cache. Update notification not sent.");
       FindByPk (js "g1");
       Send (js "c1")
         (compactContent (Cases.env_of Cases.rows (Guilds_findByPk Sample.env))
            Sample.dbProject Sample.versionData) ]).
Proof.
  apply (sendUpdateEmbed_send_rejected
           (Cases.env_of Cases.rows (Guilds_findByPk Sample.env))
           (CurseForge (Sample.project 238222)) Sample.dbProject Cases.closed_client
           Sample.versionData
           [Fetch_getModFileChangelog 238222 4713; Debug Sample.versionData]
           [ {| guildId := js "g0"; channelId := js "c0" |} ]
           {| guildId := js "g1"; channelId := js "c1" |}
           [ {| guildId := js "g2"; channelId := js "c2" |} ]
           (Cases.closed_channel (js "c1"))
           {| notificationStyle := js "compact"; changelogMaxLength := 10 |}
           (compactContent (Cases.env_of Cases.rows (Guilds_findByPk Sample.env))
              Sample.dbProject Sample.versionData)).
  - vm_compute. reflexivity.
  - reflexivity.
  - vm_compute. reflexivity.
  - vm_compute. reflexivity.
  - vm_compute. reflexivity.
  - reflexivity.
  - vm_compute. reflexivity.
Defined.

Lemma sendUpdateEmbed_accounting_witness :
  (count is_send
     (snd (sendUpdateEmbed Sample.env (CurseForge (Sample.project 238222))
             Sample.dbProject Sample.client))
   + count is_warn
       (snd (sendUpdateEmbed Sample.env (CurseForge (Sample.project 238222))
               Sample.dbProject Sample.client)))%nat
  = 4%nat.
Proof.
  apply (proj2 (sendUpdateEmbed_accounting Sample.env
                  (CurseForge (Sample.project 238222)) Sample.dbProject Sample.client)).
  vm_compute. reflexivity.
Defined.

Lemma sendUpdateEmbed_sends_tracked_witness :
  exists row channel guildSettings versionData,
    In row (TrackedProjects_findAll Sample.env (js "238222"))
    /\ destination Sample.client row = Some channel
    /\ channel_id channel = js "c1"
    /\ Guilds_findByPk Sample.env (guildId row) = Some guildSettings
    /\ styledMessage Sample.env Sample.dbProject versionData guildSettings
       = (Value (compactContent Sample.env Sample.dbProject Sample.versionData), []).
Proof.
  apply (sendUpdateEmbed_sends_tracked Sample.env (CurseForge (Sample.project 238222))
           Sample.dbProject Sample.client (js "c1")
           (compactContent Sample.env Sample.dbProject Sample.versionData)).
  vm_compute. do 6 right. left. reflexivity.
Defined.

Lemma sendUpdateEmbed_sends_platform_witness :
  exists row channel guildSettings,
    In row (TrackedProjects_findAll Sample.env (js "238222"))
    /\ destination Sample.client row = Some channel
    /\ channel_id channel = js "c1"
    /\ Guilds_findByPk Sample.env (guildId row) = Some guildSettings
    /\ map embed_color
         (embeds (compactContent Sample.env Sample.dbProject Sample.versionData))
       = [Some (js "#f87a1b")].
Proof.
  destruct (sendUpdateEmbed_sends_platform Sample.env (CurseForge (Sample.project 238222))
              Sample.dbProject Sample.client (js "c1")
              (compactContent Sample.env Sample.dbProject Sample.versionData))
    as (row & channel & gs & Hrow & Hd & Hid & Hgs & H).
  - vm_compute. do 6 right. left. reflexivity.
  - exists row, channel, gs. repeat (split; [assumption|]). reflexivity.
Defined.

Lemma sendUpdateEmbed_order_witness :
  sent_to (snd (sendUpdateEmbed Sample.env (CurseForge (Sample.project 238222))
                  Sample.dbProject Sample.client))
  = [js "c1"; js "c2"].
Proof.
  apply (proj2 (sendUpdateEmbed_order Sample.env (CurseForge (Sample.project 238222))
                  Sample.dbProject Sample.client)).
  vm_compute. reflexivity.
Defined.

Lemma sendUpdateEmbed_one_request_witness :
  count is_fetch
    (snd (sendUpdateEmbed Sample.env (CurseForge (Sample.project 238222))
            Sample.dbProject Sample.client)) = 1%nat.
Proof.
  apply (proj2 (proj2 (sendUpdateEmbed_one_request Sample.env
                         (CurseForge (Sample.project 238222)) Sample.dbProject
                         Sample.client))).
  vm_compute. apply le_n_S, Nat.le_0_l.
Defined.

Lemma sendUpdateEmbed_builder_throws_witness :
  sendUpdateEmbed Cases.no_thumbnail_env (CurseForge (Sample.project 238222))
    Sample.dbProject Sample.client
  = (Throw ValidationError,
     [ Fetch_getModFileChangelog 238222 4713;
       Debug Sample.versionData;
       FindAll (js "238222");
       Warn (js "Could not find guild with ID g0 in cache. Update notification not sent.");
       FindByPk (js "g1");
       Send (js "c1")
         (compactContent Cases.no_thumbnail_env Sample.dbProject Sample.versionData);
       FindByPk (js "g2") ]).
Proof.
  apply (sendUpdateEmbed_builder_throws Cases.no_thumbnail_env
           (CurseForge (Sample.project 238222)) Sample.dbProject Sample.client
           Sample.versionData
           [Fetch_getModFileChangelog 238222 4713; Debug Sample.versionData]
           [ {| guildId := js "g0"; channelId := js "c0" |};
             {| guildId := js "g1"; channelId := js "c1" |} ]
           {| guildId := js "g2"; channelId := js "c2" |}
           []
           (Sample.channel (js "c2"))
           {| notificationStyle := js "normal"; changelogMaxLength := 10 |}).
  - vm_compute. reflexivity.
  - reflexivity.
  - vm_compute. reflexivity.
  - vm_compute. reflexivity.
  - vm_compute. intros H. discriminate H.
  - reflexivity.
  - vm_compute. reflexivity.
Defined.
